(** * go-junit-report: the JUnit XML formatter and the command line driver

    A shallow embedding of
      - [formatter/formatter.go]   (module [Formatter]),
      - the formatter variant that also handles a separate benchmarks
        sequence, [mergeBenchmarks] included (module [FormatterBench], and
        module [Store] for its pointers),
      - [go-junit-report.go]       (module [CLI]),
    and the properties of the specification that concern them.  The Go
    runtime, [encoding/xml], [stripansi] and package [parser] are outside
    the repository's sources; the program is modelled over any
    implementation of them (classes [Externals], [Writer], [CLI.Parser]). *)

From Stdlib Require Import ZArith Lia.
From stdpp Require Import base option list strings pretty gmap.

Local Open Scope Z_scope.
Local Set Warnings "-clear-no-such-hyp".


(** ** Go primitives used by the program *)

(** [int] and [int64] ([time.Duration]) are 64-bit two's complement
    integers; arithmetic on them wraps around. *)
Definition int_min : Z := - 2 ^ 63.
Definition int_max : Z := 2 ^ 63 - 1.

Definition wrap (z : Z) : Z := (z + 2 ^ 63) `mod` 2 ^ 64 - 2 ^ 63.

Definition int_add (x y : Z) : Z := wrap (x + y).

(** [x / y] on integers truncates toward zero.  Division by zero is a
    run-time panic; callers below establish [y <> 0]. *)
Definition int_quot (x y : Z) : Z := wrap (x `quot` y).

(** [len(s)] of a slice or of a string (its number of bytes). *)
Definition len {A} (l : list A) : Z := Z.of_nat (length l).
Definition strlen (s : string) : Z := Z.of_nat (String.length s).

(** The one-byte string "\n". *)
Definition newline : string := String (Ascii.ascii_of_nat 10) EmptyString.

(** [strings.Join(elems, sep)]. *)
Fixpoint Join (elems : list string) (sep : string) : string :=
  match elems with
  | [] => EmptyString
  | [e] => e
  | e :: rest => e +:+ sep +:+ Join rest sep
  end.

(** [strings.LastIndex(s, substr)]: the byte index of the last instance
    of [substr] in [s], or [-1] when there is none. *)
Fixpoint LastIndex (s substr : string) : Z :=
  match s with
  | EmptyString => if String.prefix substr EmptyString then 0 else -1
  | String _ s' =>
      let i := LastIndex s' substr in
      if i =? -1 then (if String.prefix substr s then 0 else -1) else i + 1
  end.

(** [s[i:]].  Go panics unless [0 <= i <= len(s)]; the only call site
    guards the index (lemma [LastIndex_slice_in_range]). *)
Definition slice_from (s : string) (i : Z) : string :=
  String.substring (Z.to_nat i) (String.length s - Z.to_nat i) s.

(** ** The report model (package [parser])

    Package [parser] is not among the sources; its types are modelled
    from the spec's data model, with the fields the formatter and the
    driver read.  [Tests] and [Benchmarks] are slices of pointers in Go;
    the formatter only reads through the [Test] pointers, so tests are
    kept as values.  [mergeBenchmarks] allocates and updates [Benchmark]
    objects; module [Store] models it on a store. *)
Module parser.

(** Modelled from the spec: type [parser.Result], the spec's enum of test
    results; the formatter's switch has a case for each of the four. *)
Inductive Result := PASS | FAIL | SKIP | ERROR.

#[global] Instance Result_eq_dec : EqDecision Result.
Proof. solve_decision. Defined.

(** Modelled from the spec: struct [parser.Test]. *)
Module Test.
Record t := mk {
  Name : string;
  Duration : Z;            (* time.Duration, nanoseconds *)
  Result : parser.Result;
  Output : list string;
}.
End Test.

(** Modelled from the spec: struct [parser.Benchmark], with the fields
    [mergeBenchmarks] reads and writes. *)
Module Benchmark.
Record t := mk {
  Name : string;
  Duration : Z;            (* time.Duration, nanoseconds *)
  Bytes : Z;               (* int, B/op *)
  Allocs : Z;              (* int, allocs/op *)
}.
End Benchmark.

(** Modelled from the spec: struct [parser.Package].  [B] is what the
    [Benchmarks] slice holds: benchmark values, or pointers into a store
    of benchmarks (module [Store]). *)
Module Package.
Record t (B : Type) := mk {
  Name : string;
  Duration : Z;
  Tests : list Test.t;
  Benchmarks : list B;
  CoveragePct : string;
}.
Arguments mk {B}.
Arguments Name {B}.
Arguments Duration {B}.
Arguments Tests {B}.
Arguments Benchmarks {B}.
Arguments CoveragePct {B}.
End Package.

(** Modelled from the spec: struct [parser.Report]. *)
Module Report.
Record t (B : Type) := mk { Packages : list (Package.t B) }.
Arguments mk {B}.
Arguments Packages {B}.
End Report.

(** Modelled from the spec: the test of [Report.Failures], which is
    declared in package [parser]; a test counts when its result is FAIL or
    ERROR. *)
Definition is_failure (t : Test.t) : bool :=
  match Test.Result t with FAIL | ERROR => true | _ => false end.

(** Modelled from the spec: method [Report.Failures] of package [parser].
    The spec's words: the Report "contains at least one FAIL or ERROR Test
    anywhere"; the method counts those tests over all packages. *)
Definition Failures {B} (r : Report.t B) : Z :=
  fold_left
    (fun count p =>
       fold_left (fun count t => if is_failure t then count + 1 else count)
                 (Package.Tests p) count)
    (Report.Packages r) 0.

End parser.

(** ** The JUnit structs of [formatter.go] *)

Module JUnitProperty.
Record t := mk { Name : string; Value : string }.
End JUnitProperty.

Module JUnitSkipMessage.
Record t := mk { Message : string }.
End JUnitSkipMessage.

Module JUnitError.
Record t := mk { Message : string; Type_ : string; Contents : string }.
End JUnitError.

Module JUnitFailure.
Record t := mk { Message : string; Type_ : string; Contents : string }.
End JUnitFailure.

Module JUnitTestCase.
Record t := mk {
  Classname : string;
  Name : string;
  Time : string;
  SkipMessage : option JUnitSkipMessage.t;   (* nil pointer = None *)
  Error : option JUnitError.t;
  Failure : option JUnitFailure.t;
  SystemOut : string;
}.

Definition set_SkipMessage (v : option JUnitSkipMessage.t) (c : t) : t :=
  mk (Classname c) (Name c) (Time c) v (Error c) (Failure c) (SystemOut c).
Definition set_Error (v : option JUnitError.t) (c : t) : t :=
  mk (Classname c) (Name c) (Time c) (SkipMessage c) v (Failure c) (SystemOut c).
Definition set_Failure (v : option JUnitFailure.t) (c : t) : t :=
  mk (Classname c) (Name c) (Time c) (SkipMessage c) (Error c) v (SystemOut c).
Definition set_SystemOut (v : string) (c : t) : t :=
  mk (Classname c) (Name c) (Time c) (SkipMessage c) (Error c) (Failure c) v.
End JUnitTestCase.

Module JUnitTestSuite.
Record t := mk {
  Tests : Z;
  Failures : Z;
  Errors : Z;
  Skipped : Z;
  Time : string;
  Name : string;
  Properties : list JUnitProperty.t;
  TestCases : list JUnitTestCase.t;
}.

Definition set_Failures (v : Z) (s : t) : t :=
  mk (Tests s) v (Errors s) (Skipped s) (Time s) (Name s) (Properties s) (TestCases s).
Definition set_Errors (v : Z) (s : t) : t :=
  mk (Tests s) (Failures s) v (Skipped s) (Time s) (Name s) (Properties s) (TestCases s).
Definition set_Skipped (v : Z) (s : t) : t :=
  mk (Tests s) (Failures s) (Errors s) v (Time s) (Name s) (Properties s) (TestCases s).
Definition set_Properties (v : list JUnitProperty.t) (s : t) : t :=
  mk (Tests s) (Failures s) (Errors s) (Skipped s) (Time s) (Name s) v (TestCases s).
Definition set_TestCases (v : list JUnitTestCase.t) (s : t) : t :=
  mk (Tests s) (Failures s) (Errors s) (Skipped s) (Time s) (Name s) (Properties s) v.
End JUnitTestSuite.

Module JUnitTestSuites.
Record t := mk { Suites : list JUnitTestSuite.t }.
End JUnitTestSuites.

(** ** The document that the struct tags describe

    [encoding/xml] turns the structs above into elements as their tags
    say: [`xml:"x,attr"`] an attribute, [`xml:",chardata"`] character
    data, [`xml:",comment"`] a comment node (nothing for the empty
    string), a nil pointer no element, [`xml:"a>b"`] elements [b] wrapped
    in one [a].  Integers are kept as integers rather than as their
    decimal digits. *)
Inductive xml_value := xml_str (s : string) | xml_int (z : Z).

#[warnings="-register-all"]
Inductive xml_node :=
| xml_elem (name : string) (attrs : list (string * xml_value)) (children : list xml_node)
| xml_comment (text : string)
| xml_chardata (text : string).

Definition xml_name (n : xml_node) : option string :=
  match n with xml_elem name _ _ => Some name | _ => None end.
Definition xml_attrs (n : xml_node) : list (string * xml_value) :=
  match n with xml_elem _ attrs _ => attrs | _ => [] end.
Definition xml_children (n : xml_node) : list xml_node :=
  match n with xml_elem _ _ children => children | _ => [] end.

(** The value of attribute [k], if the element has it. *)
Fixpoint xml_attr (k : string) (attrs : list (string * xml_value)) : option xml_value :=
  match attrs with
  | [] => None
  | (k', v) :: rest => if decide (k' = k) then Some v else xml_attr k rest
  end.

(** The child elements named [name]. *)
Definition xml_child_elems (name : string) (n : xml_node) : list xml_node :=
  filter (fun c => xml_name c = Some name) (xml_children n).

Definition xml_of_skipped (m : JUnitSkipMessage.t) : xml_node :=
  xml_elem "skipped" [("message", xml_str (JUnitSkipMessage.Message m))] [].

Definition xml_of_error (e : JUnitError.t) : xml_node :=
  xml_elem "error"
    [("message", xml_str (JUnitError.Message e)); ("type", xml_str (JUnitError.Type_ e))]
    [xml_chardata (JUnitError.Contents e)].

Definition xml_of_failure (f : JUnitFailure.t) : xml_node :=
  xml_elem "failure"
    [("message", xml_str (JUnitFailure.Message f)); ("type", xml_str (JUnitFailure.Type_ f))]
    [xml_chardata (JUnitFailure.Contents f)].

Definition xml_of_comment (s : string) : list xml_node :=
  if decide (s = EmptyString) then [] else [xml_comment s].

Definition xml_of_testcase (c : JUnitTestCase.t) : xml_node :=
  xml_elem "testcase"
    [("classname", xml_str (JUnitTestCase.Classname c));
     ("name", xml_str (JUnitTestCase.Name c));
     ("time", xml_str (JUnitTestCase.Time c))]
    (option_list (xml_of_skipped <$> JUnitTestCase.SkipMessage c)
     ++ option_list (xml_of_error <$> JUnitTestCase.Error c)
     ++ option_list (xml_of_failure <$> JUnitTestCase.Failure c)
     ++ xml_of_comment (JUnitTestCase.SystemOut c)).

Definition xml_of_property (p : JUnitProperty.t) : xml_node :=
  xml_elem "property"
    [("name", xml_str (JUnitProperty.Name p)); ("value", xml_str (JUnitProperty.Value p))]
    [].

Definition xml_of_properties (ps : list JUnitProperty.t) : list xml_node :=
  match ps with
  | [] => []                                       (* omitempty *)
  | _ => [xml_elem "properties" [] (xml_of_property <$> ps)]
  end.

Definition xml_of_testsuite (s : JUnitTestSuite.t) : xml_node :=
  xml_elem "testsuite"
    [("tests", xml_int (JUnitTestSuite.Tests s));
     ("failures", xml_int (JUnitTestSuite.Failures s));
     ("errors", xml_int (JUnitTestSuite.Errors s));
     ("skipped", xml_int (JUnitTestSuite.Skipped s));
     ("time", xml_str (JUnitTestSuite.Time s));
     ("name", xml_str (JUnitTestSuite.Name s))]
    (xml_of_properties (JUnitTestSuite.Properties s)
     ++ (xml_of_testcase <$> JUnitTestSuite.TestCases s)).

Definition xml_of_testsuites (s : JUnitTestSuites.t) : xml_node :=
  xml_elem "testsuites" [] (xml_of_testsuite <$> JUnitTestSuites.Suites s).

(** ** What the program takes from outside

    The Go runtime and the libraries the formatter calls are not part of
    the repository; the program is modelled over any implementation of
    them.  [Seconds_9f d] and [Seconds_3f d] stand for
    [fmt.Sprintf("%.9f", d.Seconds())] and [fmt.Sprintf("%.3f", d.Seconds())]
    (floating point), [xml_render] for the serialisation of a document with
    tab indentation, which may fail. *)
Definition error := string.

Class Externals := {
  runtime_Version : string;
  Seconds_9f : Z -> string;
  Seconds_3f : Z -> string;
  stripansi_Strip : string -> string;
  xml_Header : string;
  xml_render : xml_node -> string + error;
}.

(** [xml.MarshalIndent] of the suites, with no prefix and a tab as indent. *)
Definition xml_MarshalIndent {Env : Externals} (suites : JUnitTestSuites.t) : string + error :=
  xml_render (xml_of_testsuites suites).

(** [io.Writer]: one [Write] call takes the bytes and returns the new
    state of the sink and the error, if any. *)
Class Writer (W : Type) := { io_Write : W -> string -> W * option error }.

(** [bytes.Buffer], the writer of the repository's formatter test: every
    write appends and succeeds.  The buffer is its content. *)
Module bytes.
#[export] Instance Buffer : Writer string := {| io_Write w s := (w +:+ s, None) |}.
End bytes.

(** [bufio.Writer]: bytes are buffered; once a write to the underlying
    writer has failed, the error sticks and later data is discarded.  The
    buffer is handed over as a whole on [Flush] (the library may split it
    into several [Write] calls, which a sink does not tell apart). *)
Module bufio.
Record Writer_ (W : Type) := mkWriter { wr : W; buf : string; err : option error }.
Arguments mkWriter {W}.
Arguments wr {W}.
Arguments buf {W}.
Arguments err {W}.

Definition NewWriter {W} (w : W) : Writer_ W := mkWriter w EmptyString None.

Definition WriteString {W} (b : Writer_ W) (s : string) : Writer_ W * option error :=
  match err b with
  | Some e => (b, Some e)
  | None => (mkWriter (wr b) (buf b +:+ s) None, None)
  end.

Definition Write {W} := @WriteString W.

Definition WriteByte {W} (b : Writer_ W) (c : Ascii.ascii) : Writer_ W * option error :=
  WriteString b (String c EmptyString).

Definition Flush {W} {Wr : Writer W} (b : Writer_ W) : Writer_ W * option error :=
  match err b with
  | Some e => (b, Some e)
  | None =>
      if decide (buf b = EmptyString) then (b, None)
      else let '(w', e) := io_Write (wr b) (buf b) in
           (mkWriter w' (match e with Some _ => buf b | None => EmptyString end) e, e)
  end.
End bufio.

(** ** [formatter/formatter.go] *)
Module Formatter.

(** [formatTime]. *)
Definition formatTime {Env : Externals} (d : Z) : string := Seconds_9f d.

(** [formatOutput]. *)
Definition formatOutput {Env : Externals} (lines : list string) (stripANSIEscape : bool) : string :=
  let joined := Join lines newline in
  if stripANSIEscape then stripansi_Strip joined else joined.

(** Lines 91-96 of [JUnitReportXML]: the classname of a package's test
    cases. *)
Definition classname_of (fullPackageClassname : bool) (pkgName : string) : string :=
  let classname := pkgName in
  if negb fullPackageClassname then
    let idx := LastIndex classname "/" in
    if (idx >? -1) && (idx <? strlen pkgName)
    then slice_from pkgName (idx + 1)
    else classname
  else classname.

(** Lines 109-142: the body of the loop over [pkg.Tests]; [ts] is the
    suite under construction. *)
Definition test_step {Env : Externals} (classname : string) (stripANSIEscape : bool)
    (ts : JUnitTestSuite.t) (test : parser.Test.t) : JUnitTestSuite.t :=
  let testCase :=
    JUnitTestCase.mk classname (parser.Test.Name test)
      (formatTime (parser.Test.Duration test)) None None None EmptyString in
  let '(ts, testCase) :=
    match parser.Test.Result test with
    | parser.SKIP =>
        (JUnitTestSuite.set_Skipped (int_add (JUnitTestSuite.Skipped ts) 1) ts,
         JUnitTestCase.set_SkipMessage
           (Some (JUnitSkipMessage.mk
                    (formatOutput (parser.Test.Output test) stripANSIEscape)))
           testCase)
    | parser.ERROR =>
        (JUnitTestSuite.set_Errors (int_add (JUnitTestSuite.Errors ts) 1) ts,
         JUnitTestCase.set_Error
           (Some (JUnitError.mk "Error" EmptyString
                    (formatOutput (parser.Test.Output test) stripANSIEscape)))
           testCase)
    | parser.FAIL =>
        (JUnitTestSuite.set_Failures (int_add (JUnitTestSuite.Failures ts) 1) ts,
         JUnitTestCase.set_Failure
           (Some (JUnitFailure.mk "Failed" EmptyString
                    (formatOutput (parser.Test.Output test) stripANSIEscape)))
           testCase)
    | parser.PASS =>
        (ts,
         JUnitTestCase.set_SystemOut
           (formatOutput (parser.Test.Output test) stripANSIEscape) testCase)
    end in
  JUnitTestSuite.set_TestCases (JUnitTestSuite.TestCases ts ++ [testCase]) ts.

(** Lines 80-145: the body of the loop over [report.Packages].  The
    state is the suites built so far and the local variable [goVersion],
    which the loop overwrites when it is empty. *)
Definition package_step {Env : Externals} {B} (fullPackageClassname stripANSIEscape : bool)
    (st : JUnitTestSuites.t * string) (pkg : parser.Package.t B)
    : JUnitTestSuites.t * string :=
  let '(suites, goVersion) := st in
  let ts :=
    JUnitTestSuite.mk (len (parser.Package.Tests pkg)) 0 0 0
      (formatTime (parser.Package.Duration pkg)) (parser.Package.Name pkg) [] [] in
  let classname := classname_of fullPackageClassname (parser.Package.Name pkg) in
  let goVersion := if decide (goVersion = EmptyString) then runtime_Version else goVersion in
  let ts :=
    JUnitTestSuite.set_Properties
      (JUnitTestSuite.Properties ts ++ [JUnitProperty.mk "go.version" goVersion]) ts in
  let ts :=
    if decide (parser.Package.CoveragePct pkg <> EmptyString) then
      JUnitTestSuite.set_Properties
        (JUnitTestSuite.Properties ts
         ++ [JUnitProperty.mk "coverage.statements.pct" (parser.Package.CoveragePct pkg)])
        ts
    else ts in
  let ts := fold_left (test_step classname stripANSIEscape) (parser.Package.Tests pkg) ts in
  (JUnitTestSuites.mk (JUnitTestSuites.Suites suites ++ [ts]), goVersion).

(** Lines 77-145: the suites assembled from the report. *)
Definition suites_of {Env : Externals} {B} (report : parser.Report.t B) (goVersion : string)
    (fullPackageClassname stripANSIEscape : bool) : JUnitTestSuites.t :=
  fst (fold_left (package_step fullPackageClassname stripANSIEscape)
         (parser.Report.Packages report) (JUnitTestSuites.mk [], goVersion)).

(** Lines 153-161: what is sent to [w]; the results of the four writer
    calls are dropped, as in the source. *)
Definition write_out {Env : Externals} {W} {Wr : Writer W} (noXMLHeader : bool) (bytes : string) (w : W) : W :=
  let writer := bufio.NewWriter w in
  let writer := if negb noXMLHeader then fst (bufio.WriteString writer xml_Header) else writer in
  let writer := fst (bufio.Write writer bytes) in
  let writer := fst (bufio.WriteByte writer (Ascii.ascii_of_nat 10)) in
  let writer := fst (bufio.Flush writer) in
  bufio.wr writer.

(** [JUnitReportXML]: the returned error ([None] is [nil]) and the sink
    afterwards. *)
Definition JUnitReportXML {Env : Externals} {B W} {Wr : Writer W} (report : parser.Report.t B)
    (noXMLHeader : bool) (goVersion : string)
    (fullPackageClassname stripANSIEscape : bool) (w : W) : option error * W :=
  let suites := suites_of report goVersion fullPackageClassname stripANSIEscape in
  match xml_MarshalIndent suites with
  | inr err => (Some err, w)
  | inl bytes => (None, write_out noXMLHeader bytes w)
  end.

End Formatter.

(** ** The formatter variant with a separate benchmarks sequence

    [JUnitReportXML(report, noXMLHeader, goVersion, w)], [mergeBenchmarks],
    [formatBenchmarkTime]; no classname and no ANSI option. *)
Module FormatterBench.

Import parser.

(** [formatTime], [formatBenchmarkTime], [formatOutput]. *)
Definition formatTime {Env : Externals} (d : Z) : string := Seconds_3f d.

Definition formatBenchmarkTime {Env : Externals} (d : Z) : string := Seconds_9f d.

Definition formatOutput {Env : Externals} (lines : list string) : string :=
  let joined := Join lines newline in
  stripansi_Strip joined.

(** *** [mergeBenchmarks], on values *)

(** First loop: [merged] gets a new [Benchmark{Name: bm.Name}] the first
    time a name is met; [benchmap] collects the samples by name.  The map
    is only looked up and stored into, never ranged over. *)
Definition collect_step (st : list Benchmark.t * gmap string (list Benchmark.t))
    (bm : Benchmark.t) : list Benchmark.t * gmap string (list Benchmark.t) :=
  let '(merged, benchmap) := st in
  let merged :=
    match benchmap !! Benchmark.Name bm with
    | None => merged ++ [Benchmark.mk (Benchmark.Name bm) 0 0 0]
    | Some _ => merged
    end in
  (merged,
   <[Benchmark.Name bm := default [] (benchmap !! Benchmark.Name bm) ++ [bm]]> benchmap).

(** Inner loop of the second loop: [bm.Allocs += b.Allocs] and so on. *)
Definition add_sample (bm b : Benchmark.t) : Benchmark.t :=
  Benchmark.mk (Benchmark.Name bm)
    (int_add (Benchmark.Duration bm) (Benchmark.Duration b))
    (int_add (Benchmark.Bytes bm) (Benchmark.Bytes b))
    (int_add (Benchmark.Allocs bm) (Benchmark.Allocs b)).

(** [bm.Allocs /= n] and so on. *)
Definition divide (bm : Benchmark.t) (n : Z) : Benchmark.t :=
  Benchmark.mk (Benchmark.Name bm)
    (int_quot (Benchmark.Duration bm) n)
    (int_quot (Benchmark.Bytes bm) n)
    (int_quot (Benchmark.Allocs bm) n).

(** Body of the second loop. *)
Definition average (benchmap : gmap string (list Benchmark.t)) (bm : Benchmark.t)
    : Benchmark.t :=
  let samples := default [] (benchmap !! Benchmark.Name bm) in
  let bm := fold_left add_sample samples bm in
  let n := len samples in
  divide bm n.

Definition collect (benchmarks : list Benchmark.t)
    : list Benchmark.t * gmap string (list Benchmark.t) :=
  fold_left collect_step benchmarks ([], ∅).

Definition mergeBenchmarks (benchmarks : list Benchmark.t) : list Benchmark.t :=
  let '(merged, benchmap) := collect benchmarks in
  average benchmap <$> merged.

(** *** [JUnitReportXML] *)

Definition classname_of (pkgName : string) : string :=
  let classname := pkgName in
  let idx := LastIndex classname "/" in
  if (idx >? -1) && (idx <? strlen pkgName)
  then slice_from pkgName (idx + 1)
  else classname.

(** Lines 108-141: the body of the loop over [pkg.Tests]. *)
Definition test_step {Env : Externals} (classname : string)
    (ts : JUnitTestSuite.t) (test : Test.t) : JUnitTestSuite.t :=
  let testCase :=
    JUnitTestCase.mk classname (Test.Name test)
      (formatTime (Test.Duration test)) None None None EmptyString in
  let '(ts, testCase) :=
    match Test.Result test with
    | SKIP =>
        (JUnitTestSuite.set_Skipped (int_add (JUnitTestSuite.Skipped ts) 1) ts,
         JUnitTestCase.set_SkipMessage
           (Some (JUnitSkipMessage.mk (formatOutput (Test.Output test)))) testCase)
    | ERROR =>
        (JUnitTestSuite.set_Errors (int_add (JUnitTestSuite.Errors ts) 1) ts,
         JUnitTestCase.set_Error
           (Some (JUnitError.mk "Error" EmptyString (formatOutput (Test.Output test)))) testCase)
    | FAIL =>
        (JUnitTestSuite.set_Failures (int_add (JUnitTestSuite.Failures ts) 1) ts,
         JUnitTestCase.set_Failure
           (Some (JUnitFailure.mk "Failed" EmptyString (formatOutput (Test.Output test)))) testCase)
    | PASS =>
        (ts, JUnitTestCase.set_SystemOut (formatOutput (Test.Output test)) testCase)
    end in
  JUnitTestSuite.set_TestCases (JUnitTestSuite.TestCases ts ++ [testCase]) ts.

(** Lines 143-152: the body of the loop over the merged benchmarks. *)
Definition benchmark_step {Env : Externals} (classname : string)
    (ts : JUnitTestSuite.t) (benchmark : Benchmark.t) : JUnitTestSuite.t :=
  let benchmarkCase :=
    JUnitTestCase.mk classname (Benchmark.Name benchmark)
      (formatBenchmarkTime (Benchmark.Duration benchmark)) None None None EmptyString in
  JUnitTestSuite.set_TestCases (JUnitTestSuite.TestCases ts ++ [benchmarkCase]) ts.

(** Lines 82-154: the loop body once [pkg.Benchmarks] holds the merged
    benchmarks [merged]; of [pkg] itself only the other fields are read. *)
Definition package_step_merged {Env : Externals} {B} (st : JUnitTestSuites.t * string)
    (pkg : Package.t B) (merged : list Benchmark.t) : JUnitTestSuites.t * string :=
  let '(suites, goVersion) := st in
  let ts :=
    JUnitTestSuite.mk (int_add (len (Package.Tests pkg)) (len merged)) 0 0 0
      (formatTime (Package.Duration pkg)) (Package.Name pkg) [] [] in
  let classname := classname_of (Package.Name pkg) in
  let goVersion := if decide (goVersion = EmptyString) then runtime_Version else goVersion in
  let ts :=
    JUnitTestSuite.set_Properties
      (JUnitTestSuite.Properties ts ++ [JUnitProperty.mk "go.version" goVersion]) ts in
  let ts :=
    if decide (Package.CoveragePct pkg <> EmptyString) then
      JUnitTestSuite.set_Properties
        (JUnitTestSuite.Properties ts
         ++ [JUnitProperty.mk "coverage.statements.pct" (Package.CoveragePct pkg)])
        ts
    else ts in
  let ts := fold_left (test_step classname) (Package.Tests pkg) ts in
  let ts := fold_left (benchmark_step classname) merged ts in
  (JUnitTestSuites.mk (JUnitTestSuites.Suites suites ++ [ts]), goVersion).

(** Lines 80-155: [pkg] is the loop's copy of the package; line 81
    replaces its [Benchmarks] by the merged ones. *)
Definition package_step {Env : Externals} (st : JUnitTestSuites.t * string)
    (pkg : Package.t Benchmark.t) : JUnitTestSuites.t * string :=
  package_step_merged st pkg (mergeBenchmarks (Package.Benchmarks pkg)).

Definition suites_of {Env : Externals} (report : Report.t Benchmark.t) (goVersion : string)
    : JUnitTestSuites.t :=
  fst (fold_left package_step (Report.Packages report) (JUnitTestSuites.mk [], goVersion)).

Definition JUnitReportXML {Env : Externals} {W} {Wr : Writer W} (report : Report.t Benchmark.t)
    (noXMLHeader : bool) (goVersion : string) (w : W) : option error * W :=
  let suites := suites_of report goVersion in
  match xml_MarshalIndent suites with
  | inr err => (Some err, w)
  | inl bytes => (None, Formatter.write_out noXMLHeader bytes w)
  end.

End FormatterBench.

(** ** [mergeBenchmarks] and [JUnitReportXML] on a store

    [Benchmarks] is a [[]*parser.Benchmark]: the report shares its
    benchmark objects with the caller, and [mergeBenchmarks] allocates new
    objects and updates them through their pointers.  Here the objects live
    in a store; a pointer outside the store stands for [nil], and reading
    through it is a panic ([None]). *)
Module Store.

Import parser.

Abbreviation loc := positive.
Abbreviation heap := (gmap positive Benchmark.t).

(** [&parser.Benchmark{Name: name}]. *)
Definition alloc (h : heap) (name : string) : heap * loc :=
  let q := fresh (dom h) in
  (<[q := Benchmark.mk name 0 0 0]> h, q).

Definition collect_step (st : option (heap * list loc * gmap string (list loc)))
    (p : loc) : option (heap * list loc * gmap string (list loc)) :=
  '(h, merged, benchmap) ← st;
  bm ← h !! p;
  let '(h, merged) :=
    match benchmap !! Benchmark.Name bm with
    | None => let '(h, q) := alloc h (Benchmark.Name bm) in (h, merged ++ [q])
    | Some _ => (h, merged)
    end in
  Some (h, merged,
        <[Benchmark.Name bm := default [] (benchmap !! Benchmark.Name bm) ++ [p]]> benchmap).

(** [bm.Allocs += b.Allocs] and so on, [bm] and [b] being pointers. *)
Definition add_sample (q : loc) (st : option heap) (p : loc) : option heap :=
  h ← st;
  b ← h !! p;
  bm ← h !! q;
  Some (<[q := FormatterBench.add_sample bm b]> h).

Definition average (benchmap : gmap string (list loc)) (st : option heap) (q : loc)
    : option heap :=
  h ← st;
  bm ← h !! q;
  let samples := default [] (benchmap !! Benchmark.Name bm) in
  h ← fold_left (add_sample q) samples (Some h);
  bm ← h !! q;
  let n := len samples in
  Some (<[q := FormatterBench.divide bm n]> h).

Definition mergeBenchmarks (h : heap) (benchmarks : list loc) : option (heap * list loc) :=
  '(h, merged, benchmap) ← fold_left collect_step benchmarks (Some (h, [], ∅));
  h ← fold_left (average benchmap) merged (Some h);
  Some (h, merged).

(** The loop body of [JUnitReportXML].  [report.Packages] is a slice of
    [Package] values (the test file builds it so): line 81 stores the
    merged slice in the loop's copy of the package, and lines 82-154 read
    the merged benchmarks through their pointers. *)
Definition package_step {Env : Externals}
    (st : option (heap * (JUnitTestSuites.t * string)))
    (pkg : Package.t loc) : option (heap * (JUnitTestSuites.t * string)) :=
  '(h, s) ← st;
  '(h, merged) ← mergeBenchmarks h (Package.Benchmarks pkg);
  benchmarks ← mapM (h !!.) merged;
  Some (h, FormatterBench.package_step_merged s pkg benchmarks).

(** [JUnitReportXML] started in store [h]: the store afterwards, the
    returned error and the sink, or [None] for a panic. *)
Definition JUnitReportXML {Env : Externals} {W} {Wr : Writer W} (h : heap)
    (report : Report.t loc) (noXMLHeader : bool) (goVersion : string) (w : W)
    : option (heap * (option error * W)) :=
  '(h, (suites, _)) ←
    fold_left package_step (Report.Packages report)
      (Some (h, (JUnitTestSuites.mk [], goVersion)));
  match xml_MarshalIndent suites with
  | inr err => Some (h, (Some err, w))
  | inl bytes => Some (h, (None, Formatter.write_out noXMLHeader bytes w))
  end.

(** The report as [JUnitReportXML] reads it in store [h]. *)
Definition load_package (h : heap) (pkg : Package.t loc) : option (Package.t Benchmark.t) :=
  benchmarks ← mapM (h !!.) (Package.Benchmarks pkg);
  Some (Package.mk (Package.Name pkg) (Package.Duration pkg) (Package.Tests pkg)
          benchmarks (Package.CoveragePct pkg)).

Definition load_report (h : heap) (report : Report.t loc) : option (Report.t Benchmark.t) :=
  Report.mk <$> mapM (load_package h) (Report.Packages report).

End Store.

(** ** [go-junit-report.go] *)
Module CLI.

Record Flags := mkFlags {
  noXMLHeader : bool;
  packageName : string;
  goVersionFlag : string;
  setExitCode : bool;
  stripANSIEscape : bool;
  fullPackageClassname : bool;
}.

(** [parser.Parse(os.Stdin, *packageName)]: package [parser] is not among
    the sources; the driver is modelled over any parser. *)
Class Parser (B : Type) := { parser_Parse : string -> string -> parser.Report.t B + error }.

(** [fmt.Printf] to standard output; its result is dropped. *)
Definition Printf {W} {Wr : Writer W} (w : W) (s : string) : W := fst (io_Write w s).

(** [main]: the exit status of the process and standard output
    afterwards.  [NArg] is [flag.NArg()], [stdin] the whole input.  The
    usage message on standard error is left out. *)
Definition main {Env : Externals} {B W} {P : Parser B} {Wr : Writer W}
    (flags : Flags) (NArg : Z) (stdin : string) (stdout : W) : Z * W :=
  if negb (NArg =? 0) then (1, stdout)
  else
    match parser_Parse stdin (packageName flags) with
    | inr err => (1, Printf stdout ("Error reading input: " +:+ err +:+ newline))
    | inl report =>
        match Formatter.JUnitReportXML report (noXMLHeader flags) (goVersionFlag flags)
                (fullPackageClassname flags) (stripANSIEscape flags) stdout with
        | (Some err, stdout) =>
            (1, Printf stdout ("Error writing XML: " +:+ err +:+ newline))
        | (None, stdout) =>
            if setExitCode flags && (parser.Failures report >? 0)
            then (1, stdout)
            else (0, stdout)
        end
    end.

End CLI.

(** ** Notions used in the statements *)

(** The number of tests of a package with result [r]. *)
Definition count_result (r : parser.Result) (tests : list parser.Test.t) : Z :=
  len (filter (fun t => parser.Test.Result t = r) tests).

(** [has_byte c s]: byte [c] occurs in [s]. *)
Fixpoint has_byte (c : Ascii.ascii) (s : string) : bool :=
  match s with
  | EmptyString => false
  | String c' s' => if decide (c' = c) then true else has_byte c s'
  end.

Definition slash : Ascii.ascii := Ascii.ascii_of_nat 47.

(** [seg] is the part of [name] after its last '/', the whole of [name]
    when it has none. *)
Definition last_segment (name seg : string) : Prop :=
  (has_byte slash name = false /\ seg = name)
  \/ (exists dir, name = dir +:+ "/" +:+ seg /\ has_byte slash seg = false).

(** The four shapes of a test case, as the spec describes them. *)
Definition testcase_attrs (classname name time : string) : list (string * xml_value) :=
  [("classname", xml_str classname); ("name", xml_str name); ("time", xml_str time)].

Definition expected_children (r : parser.Result) (out : string) : list xml_node :=
  match r with
  | parser.PASS => xml_of_comment out
  | parser.FAIL =>
      [xml_elem "failure" [("message", xml_str "Failed"); ("type", xml_str EmptyString)]
         [xml_chardata out]]
  | parser.ERROR =>
      [xml_elem "error" [("message", xml_str "Error"); ("type", xml_str EmptyString)]
         [xml_chardata out]]
  | parser.SKIP => [xml_elem "skipped" [("message", xml_str out)] []]
  end.

(** The names of a list, each once, in the order of first occurrence. *)
Fixpoint distinct_names (names : list string) : list string :=
  match names with
  | [] => []
  | n :: rest => n :: filter (fun m => m <> n) (distinct_names rest)
  end.

Definition samples_named (name : string) (bs : list parser.Benchmark.t)
    : list parser.Benchmark.t :=
  filter (fun b => parser.Benchmark.Name b = name) bs.

(** The sum of a field over samples, as an integer. *)
Definition sum_of (f : parser.Benchmark.t -> Z) (bs : list parser.Benchmark.t) : Z :=
  foldr (fun b acc => f b + acc) 0 bs.

(** Refinement target for [mergeBenchmarks], following the spec's words:
    one benchmark per distinct name, in first-occurrence order, each field
    the sum over the samples of that name divided by their number.  The
    sums and quotients are those of Go's [int] and [time.Duration]. *)
Definition merged_of (bs : list parser.Benchmark.t) (name : string) : parser.Benchmark.t :=
  let samples := samples_named name bs in
  let n := len samples in
  parser.Benchmark.mk name
    (int_quot (wrap (sum_of parser.Benchmark.Duration samples)) n)
    (int_quot (wrap (sum_of parser.Benchmark.Bytes samples)) n)
    (int_quot (wrap (sum_of parser.Benchmark.Allocs samples)) n).

Definition merge_spec (bs : list parser.Benchmark.t) : list parser.Benchmark.t :=
  merged_of bs <$> distinct_names (parser.Benchmark.Name <$> bs).

(** The test case [Formatter.test_step] appends for [test]. *)
Definition testCase_of {Env : Externals} (classname : string) (stripANSIEscape : bool)
    (test : parser.Test.t) : JUnitTestCase.t :=
  let out := Formatter.formatOutput (parser.Test.Output test) stripANSIEscape in
  let c := JUnitTestCase.mk classname (parser.Test.Name test)
             (Formatter.formatTime (parser.Test.Duration test)) None None None EmptyString in
  match parser.Test.Result test with
  | parser.SKIP => JUnitTestCase.set_SkipMessage (Some (JUnitSkipMessage.mk out)) c
  | parser.ERROR => JUnitTestCase.set_Error (Some (JUnitError.mk "Error" EmptyString out)) c
  | parser.FAIL => JUnitTestCase.set_Failure (Some (JUnitFailure.mk "Failed" EmptyString out)) c
  | parser.PASS => JUnitTestCase.set_SystemOut out c
  end.

(** The test cases [FormatterBench] appends for a test and for a merged
    benchmark. *)
Definition bench_testCase_of {Env : Externals} (classname : string) (test : parser.Test.t)
    : JUnitTestCase.t :=
  let out := FormatterBench.formatOutput (parser.Test.Output test) in
  let c := JUnitTestCase.mk classname (parser.Test.Name test)
             (FormatterBench.formatTime (parser.Test.Duration test)) None None None EmptyString in
  match parser.Test.Result test with
  | parser.SKIP => JUnitTestCase.set_SkipMessage (Some (JUnitSkipMessage.mk out)) c
  | parser.ERROR => JUnitTestCase.set_Error (Some (JUnitError.mk "Error" EmptyString out)) c
  | parser.FAIL => JUnitTestCase.set_Failure (Some (JUnitFailure.mk "Failed" EmptyString out)) c
  | parser.PASS => JUnitTestCase.set_SystemOut out c
  end.

Definition benchmarkCase_of {Env : Externals} (classname : string) (b : parser.Benchmark.t)
    : JUnitTestCase.t :=
  JUnitTestCase.mk classname (parser.Benchmark.Name b)
    (FormatterBench.formatBenchmarkTime (parser.Benchmark.Duration b)) None None None EmptyString.

(** The value of the local variable [goVersion] once the loop body has
    run: the flag, or the runtime's version when the flag is empty. *)
Definition effective_goVersion {Env : Externals} (goVersion : string) : string :=
  if decide (goVersion = EmptyString) then runtime_Version else goVersion.

Definition properties_of {B} (goVersion : string) (pkg : parser.Package.t B)
    : list JUnitProperty.t :=
  JUnitProperty.mk "go.version" goVersion ::
  (if decide (parser.Package.CoveragePct pkg <> EmptyString)
   then [JUnitProperty.mk "coverage.statements.pct" (parser.Package.CoveragePct pkg)]
   else []).

(** The suite [Formatter.package_step] appends for [pkg], in closed form
    (lemma [Formatter_package_step_eq]). *)
Definition suite_of {Env : Externals} {B} (fullPackageClassname stripANSIEscape : bool)
    (goVersion : string) (pkg : parser.Package.t B) : JUnitTestSuite.t :=
  let tests := parser.Package.Tests pkg in
  JUnitTestSuite.mk (len tests)
    (wrap (count_result parser.FAIL tests))
    (wrap (count_result parser.ERROR tests))
    (wrap (count_result parser.SKIP tests))
    (Formatter.formatTime (parser.Package.Duration pkg))
    (parser.Package.Name pkg)
    (properties_of goVersion pkg)
    (testCase_of (Formatter.classname_of fullPackageClassname (parser.Package.Name pkg))
       stripANSIEscape <$> tests).

(** The suite [FormatterBench.package_step_merged] appends for [pkg] and
    its merged benchmarks, in closed form. *)
Definition bench_suite_of {Env : Externals} {B} (goVersion : string) (pkg : parser.Package.t B)
    (merged : list parser.Benchmark.t) : JUnitTestSuite.t :=
  let tests := parser.Package.Tests pkg in
  let classname := FormatterBench.classname_of (parser.Package.Name pkg) in
  JUnitTestSuite.mk (int_add (len tests) (len merged))
    (wrap (count_result parser.FAIL tests))
    (wrap (count_result parser.ERROR tests))
    (wrap (count_result parser.SKIP tests))
    (FormatterBench.formatTime (parser.Package.Duration pkg))
    (parser.Package.Name pkg)
    (properties_of goVersion pkg)
    ((bench_testCase_of classname <$> tests) ++ (benchmarkCase_of classname <$> merged)).

(** The pointers [ps] lead, in store [h], to the benchmarks [vs]. *)
Definition points_to (h : gmap positive parser.Benchmark.t) (ps : list positive)
    (vs : list parser.Benchmark.t) : Prop :=
  Forall2 (fun p v => h !! p = Some v) ps vs.

(** How the state of [Store.mergeBenchmarks] in its first loop, started
    in store [h0], relates to the state of [FormatterBench.mergeBenchmarks]:
    the caller's objects are untouched, the merged objects are new and
    distinct, and both states hold the same benchmarks. *)
Definition collect_rel (h0 : gmap positive parser.Benchmark.t)
    (st : gmap positive parser.Benchmark.t * list positive * gmap string (list positive))
    (stv : list parser.Benchmark.t * gmap string (list parser.Benchmark.t)) : Prop :=
  let '(h, merged, benchmap) := st in
  h0 ⊆ h
  /\ NoDup merged
  /\ (forall q, q ∈ merged -> h0 !! q = None)
  /\ points_to h merged (fst stv)
  /\ (forall n, option_Forall2 (points_to h0) (benchmap !! n) (snd stv !! n)).

(** The document each variant hands to the serialiser, and its
    [<testsuite>] and [<testcase>] elements in document order. *)
Definition document {Env : Externals} {B} (report : parser.Report.t B) (goVersion : string)
    (fullPackageClassname stripANSIEscape : bool) : xml_node :=
  xml_of_testsuites (Formatter.suites_of report goVersion fullPackageClassname stripANSIEscape).

Definition bench_document {Env : Externals} (report : parser.Report.t parser.Benchmark.t)
    (goVersion : string) : xml_node :=
  xml_of_testsuites (FormatterBench.suites_of report goVersion).

Definition testsuite_elems (doc : xml_node) : list xml_node :=
  xml_child_elems "testsuite" doc.

Definition testcase_elems (suite : xml_node) : list xml_node :=
  xml_child_elems "testcase" suite.

(** The text [Formatter] and [FormatterBench] emit for a test's output. *)
Definition output_text {Env : Externals} (stripANSIEscape : bool) (lines : list string) : string :=
  let text := Join lines newline in
  if stripANSIEscape then stripansi_Strip text else text.

(** A [<testcase>] element for a test, and one for a benchmark: the
    latter has the three attributes and nothing else. *)
Definition test_elem (classname name time : string) (r : parser.Result) (out : string)
    : xml_node :=
  xml_elem "testcase" (testcase_attrs classname name time) (expected_children r out).

Definition benchmark_elem {Env : Externals} (classname : string) (b : parser.Benchmark.t)
    : xml_node :=
  xml_elem "testcase"
    (testcase_attrs classname (parser.Benchmark.Name b)
       (Seconds_9f (parser.Benchmark.Duration b)))
    [].

(** A benchmark whose fields are values of their Go types. *)
Definition int_range (z : Z) : Prop := int_min <= z <= int_max.

Definition benchmark_wf (b : parser.Benchmark.t) : Prop :=
  int_range (parser.Benchmark.Duration b)
  /\ int_range (parser.Benchmark.Bytes b)
  /\ int_range (parser.Benchmark.Allocs b).

(** A test counts as failed when its result is FAIL or ERROR. *)
Definition has_failure {B} (report : parser.Report.t B) : Prop :=
  exists pkg test,
    pkg ∈ parser.Report.Packages report
    /\ test ∈ parser.Package.Tests pkg
    /\ (parser.Test.Result test = parser.FAIL \/ parser.Test.Result test = parser.ERROR).

(** ** Test doubles

    Stand-ins for the outside world, to run the model on concrete
    reports: durations print as their nanosecond count, the ANSI filter
    drops every ESC byte, the serialiser prints the element names and the
    texts in document order and refuses a comment that holds two dashes
    in a row. *)
Module Demo.

Definition drop_esc : string -> string :=
  fix go s :=
    match s with
    | EmptyString => EmptyString
    | String c s' =>
        if decide (c = Ascii.ascii_of_nat 27) then go s' else String c (go s')
    end.

Fixpoint has_dashes (s : string) : bool :=
  match s with
  | EmptyString => false
  | String c s' => String.prefix "--" s || has_dashes s'
  end.

Fixpoint render_go (fuel : nat) (n : xml_node) : string + error :=
  match fuel with
  | O => inr "too deep"
  | S fuel =>
      match n with
      | xml_elem name attrs children =>
          match
            foldr (fun c acc =>
                     match render_go fuel c, acc with
                     | inl s, inl t => inl (s +:+ t)
                     | inr e, _ => inr e
                     | _, inr e => inr e
                     end)
                  (inl EmptyString) children
          with
          | inl body => inl ("<" +:+ name +:+ ">" +:+ body)
          | inr e => inr e
          end
      | xml_comment text =>
          if has_dashes text then inr "bad comment" else inl text
      | xml_chardata text => inl text
      end
  end.

#[export] Instance ext : Externals := {|
  runtime_Version := "go1.13";
  Seconds_9f := fun d => pretty d;
  Seconds_3f := fun d => pretty d;
  stripansi_Strip := drop_esc;
  xml_Header := "<?xml?>";
  xml_render := render_go 8;
|}.

(** A closed pipe: every write fails and nothing is taken. *)
Inductive closed_pipe := ClosedPipe.
#[export] Instance Broken : Writer closed_pipe := {| io_Write w s := (w, Some "EPIPE") |}.

Definition test (name : string) (r : parser.Result) (out : list string) : parser.Test.t :=
  parser.Test.mk name 1000 r out.

Definition pkg_tests : parser.Package.t parser.Benchmark.t :=
  parser.Package.mk "github.com/acme/pkg" 5000
    [test "TestA" parser.PASS ["ok"]; test "TestB" parser.FAIL ["boom"; "trace"];
     test "TestC" parser.SKIP ["why"]; test "TestD" parser.ERROR ["panic"]]
    [] EmptyString.

Definition report_tests : parser.Report.t parser.Benchmark.t :=
  parser.Report.mk [pkg_tests].

Definition report_pass : parser.Report.t parser.Benchmark.t :=
  parser.Report.mk [parser.Package.mk "pkg" 0 [test "TestA" parser.PASS []] [] EmptyString].

(** Samples of [go test -bench -count]: [BenchmarkNew] twice around
    [BenchmarkFew]. *)
Definition samples : list parser.Benchmark.t :=
  [parser.Benchmark.mk "BenchmarkNew" 350 80 3;
   parser.Benchmark.mk "BenchmarkFew" 100 20 1;
   parser.Benchmark.mk "BenchmarkNew" 357 81 4].

Definition pkg_bench : parser.Package.t parser.Benchmark.t :=
  parser.Package.mk "package/bench" 5000 [] samples EmptyString.

Definition report_bench : parser.Report.t parser.Benchmark.t :=
  parser.Report.mk [pkg_bench].

(** The same report with its benchmarks in a store. *)
Definition store : gmap positive parser.Benchmark.t :=
  list_to_map (zip [1%positive; 2%positive; 3%positive] samples).

Definition report_bench_ref : parser.Report.t positive :=
  parser.Report.mk
    [parser.Package.mk "package/bench" 5000 [] [1%positive; 2%positive; 3%positive] EmptyString].

(** A parser that knows one input. *)
#[export] Instance one_input : CLI.Parser parser.Benchmark.t := {|
  CLI.parser_Parse stdin packageName :=
    if decide (stdin = "tests") then inl report_tests
    else if decide (stdin = "pass") then inl report_pass
    else inr "read error"
|}.

Definition flags (setExitCode : bool) : CLI.Flags :=
  CLI.mkFlags false EmptyString EmptyString setExitCode false false.

End Demo.

(** ** The formatter test of [go-junit-report_test.go] *)
Module FormatterTest.

(** [ioutil.ReadFile]: the files of [testdata/] are outside the sources. *)
Class Files := { ioutil_ReadFile : string -> string + error }.

(** [strings.Replace(s, old, new, -1)] for a non-empty [old]: every
    instance of [old] found from left to right, none overlapping another,
    gives way to [new].  [skip] counts the bytes of an instance still to
    be passed over. *)
Fixpoint Replace_from (skip : nat) (s old new : string) : string :=
  match s with
  | EmptyString => EmptyString
  | String c s' =>
      match skip with
      | S k => Replace_from k s' old new
      | O =>
          if String.prefix old s
          then new +:+ Replace_from (String.length old - 1) s' old new
          else String c (Replace_from 0 s' old new)
      end
  end.

Definition Replace (s old new : string) : string := Replace_from 0 s old new.

Definition quote : string := String (Ascii.ascii_of_nat 34) EmptyString.

(** The attribute text [value=] followed by [v] in double quotes. *)
Definition value_attr (v : string) : string := "value=" +:+ quote +:+ v +:+ quote.

(** [loadTestReport]. *)
Definition loadTestReport {Env : Externals} {F : Files} (name goVersion : string)
    : string + error :=
  match ioutil_ReadFile ("testdata/" +:+ name) with
  | inr err => inr err
  | inl contents =>
      let goVersion := if decide (goVersion = EmptyString) then runtime_Version else goVersion in
      let report := Replace contents (value_attr "1.0") (value_attr goVersion) in
      inl report
  end.

(** [TestCase]. *)
Record TestCase := mkTestCase {
  name : string;
  reportName : string;
  report : parser.Report.t parser.Benchmark.t;
  noXMLHeader : bool;
  packageName : string;
  fullPackageClassname : bool;
  stripANSIEscape : bool;
}.

(** How a subtest ends: without a failure, with [t.Fatal(err)], or with
    the [t.Errorf] that shows the expected and the formatted report. *)
Inductive outcome := Pass | Fatal (err : error) | Errorf (exp got : string).

(** The body that [testJUnitFormatter] runs for one test case.  The
    call passes [testCase.stripANSIEscape] and
    [testCase.fullPackageClassname] in this order, as the source does. *)
Definition subtest {Env : Externals} {F : Files} (testCase : TestCase) (goVersion : string)
    : outcome :=
  match loadTestReport (reportName testCase) goVersion with
  | inr err => Fatal err
  | inl expected =>
      match Formatter.JUnitReportXML (Wr := bytes.Buffer) (report testCase)
              (noXMLHeader testCase) goVersion
              (stripANSIEscape testCase) (fullPackageClassname testCase) EmptyString with
      | (Some err, _) => Fatal err
      | (None, junitReport) =>
          if decide (junitReport <> expected) then Errorf expected junitReport else Pass
      end
  end.

(** [testJUnitFormatter]: the outcomes of the subtests, in order. *)
Definition testJUnitFormatter {Env : Externals} {F : Files} (testCases : list TestCase)
    (goVersion : string) : list outcome :=
  (fun testCase => subtest testCase goVersion) <$> testCases.

End FormatterTest.

(** ** More notions used in the statements *)

(** The name and value attributes of the properties of a [<testsuite>]
    element, in document order. *)
Definition property_pairs (suite : xml_node) : list (option xml_value * option xml_value) :=
  xml_child_elems "properties" suite
  ≫= (fun ps =>
        (fun p => (xml_attr "name" (xml_attrs p), xml_attr "value" (xml_attrs p)))
        <$> xml_child_elems "property" ps).

(** A [<testcase>] element without its time: classname, name, children. *)
Definition testcase_view (tc : xml_node)
    : option xml_value * option xml_value * list xml_node :=
  (xml_attr "classname" (xml_attrs tc), xml_attr "name" (xml_attrs tc), xml_children tc).

(** A [<testsuite>] element without its time and its test cases: the
    counts, the name and the properties. *)
Definition testsuite_view (suite : xml_node)
    : list (option xml_value) * list (option xml_value * option xml_value) :=
  ((fun k => xml_attr k (xml_attrs suite)) <$> ["tests"; "failures"; "errors"; "skipped"; "name"],
   property_pairs suite).

(** ** More test doubles *)
Module Fixtures.

(** A report whose only test passed with an output that cannot go into
    an XML comment. *)
Definition report_dashes : parser.Report.t parser.Benchmark.t :=
  parser.Report.mk
    [parser.Package.mk "pkg" 0 [Demo.test "TestA" parser.PASS ["a--b"]] [] EmptyString].

(** A parser that knows three inputs. *)
#[export] Instance three_inputs : CLI.Parser parser.Benchmark.t := {|
  CLI.parser_Parse stdin packageName :=
    if decide (stdin = "tests") then inl Demo.report_tests
    else if decide (stdin = "dashes") then inl report_dashes
    else inr "unexpected EOF"
|}.


Definition samples_reordered : list parser.Benchmark.t :=
  [parser.Benchmark.mk "BenchmarkNew" 357 81 4;
   parser.Benchmark.mk "BenchmarkNew" 350 80 3;
   parser.Benchmark.mk "BenchmarkFew" 100 20 1].

(** A [testdata/] directory with one expected report, and its test
    case. *)
Definition expected_pass : string :=
  "<?xml?><testsuites><testsuite><properties><property><testcase>" +:+ newline.

#[export] Instance testdata : FormatterTest.Files := {|
  FormatterTest.ioutil_ReadFile path :=
    if decide (path = "testdata/01-report.xml") then inl expected_pass
    else inr "no such file"
|}.

Definition case_pass : FormatterTest.TestCase :=
  FormatterTest.mkTestCase "01-pass.txt" "01-report.xml" Demo.report_pass
    false EmptyString false false.

End Fixtures.

(** ** Integer arithmetic *)
Section Integers.

Lemma wrap_id z : int_min <= z <= int_max -> wrap z = z.
Proof.
  unfold wrap, int_min, int_max. intros Hz.
  rewrite Z.mod_small; lia.
Qed.

Lemma wrap_range z : int_min <= wrap z <= int_max.
Proof.
  unfold wrap, int_min, int_max.
  pose proof (Z.mod_pos_bound (z + 2 ^ 63) (2 ^ 64)). lia.
Qed.

Lemma wrap_wrap z : wrap (wrap z) = wrap z.
Proof. apply wrap_id, wrap_range. Qed.

Lemma wrap_add_l a b : wrap (wrap a + b) = wrap (a + b).
Proof.
  unfold wrap. f_equal.
  replace ((a + 2 ^ 63) `mod` 2 ^ 64 - 2 ^ 63 + b + 2 ^ 63)
    with ((a + 2 ^ 63) `mod` 2 ^ 64 + b) by lia.
  rewrite Zplus_mod_idemp_l. f_equal. lia.
Qed.

Lemma wrap_0 : wrap 0 = 0.
Proof. reflexivity. Qed.

(** Dividing a representable integer by a positive one stays in range. *)
Lemma quot_le_self x n : 0 <= x -> 0 < n -> 0 <= x `quot` n <= x.
Proof.
  intros Hx Hn. split; [by apply Z.quot_pos|].
  apply Z.quot_le_upper_bound; [done|].
  assert (1 * x <= n * x) by (apply Z.mul_le_mono_nonneg_r; lia). lia.
Qed.

Lemma int_quot_pos x n :
  int_min <= x <= int_max -> 0 < n -> int_quot x n = x `quot` n.
Proof.
  intros Hx Hn. unfold int_quot. apply wrap_id.
  destruct (Z.le_gt_cases 0 x) as [H0|H0].
  - pose proof (quot_le_self x n H0 Hn). unfold int_min in *. lia.
  - assert (Hq : x `quot` n = - ((- x) `quot` n)).
    { rewrite Z.quot_opp_l by lia. lia. }
    pose proof (quot_le_self (- x) n ltac:(lia) Hn). unfold int_max in *. lia.
Qed.

Lemma len_nonneg {A} (l : list A) : 0 <= len l.
Proof. unfold len. lia. Qed.

Lemma len_app {A} (l k : list A) : len (l ++ k) = len l + len k.
Proof. unfold len. rewrite length_app. lia. Qed.

End Integers.

(** ** Strings: [LastIndex], slicing, and the last path segment *)
Section Strings.

Lemma append_cons c a b : String c a +:+ b = String c (a +:+ b).
Proof. reflexivity. Qed.

Lemma append_nil b : EmptyString +:+ b = b.
Proof. reflexivity. Qed.

Lemma strlen_cons c s : strlen (String c s) = strlen s + 1.
Proof. unfold strlen. simpl String.length. lia. Qed.

Lemma prefix_slash c s :
  String.prefix "/" (String c s) = bool_decide (c = slash).
Proof.
  cbn [String.prefix].
  match goal with
  | |- context [Ascii.ascii_dec ?a c] => destruct (Ascii.ascii_dec a c) as [<-|Hne]
  end.
  - rewrite bool_decide_eq_true_2 by done. by destruct s.
  - symmetry. apply bool_decide_eq_false_2. intros ->. by apply Hne.
Qed.

Lemma has_byte_app c a b : has_byte c (a +:+ b) = has_byte c a || has_byte c b.
Proof.
  induction a as [|c' a IH]; [done|].
  rewrite append_cons. simpl. by destruct (decide (c' = c)).
Qed.

(** Without a '/' there is no last index. *)
Lemma LastIndex_none s : has_byte slash s = false -> LastIndex s "/" = -1.
Proof.
  induction s as [|c s IH]; [done|].
  simpl has_byte. destruct (decide (c = slash)) as [|Hne]; [done|]. intros Hs.
  cbn [LastIndex]. rewrite (IH Hs). cbn [Z.eqb Z.opp Pos.eqb].
  rewrite prefix_slash, bool_decide_eq_false_2; done.
Qed.

Lemma LastIndex_lower s : -1 <= LastIndex s "/".
Proof.
  induction s as [|c s IH]; [done|].
  cbn [LastIndex]. destruct (Z.eqb_spec (LastIndex s "/") (-1)).
  - destruct (String.prefix _ _); lia.
  - lia.
Qed.

(** The index of the last '/' is the length of what precedes it. *)
Lemma LastIndex_last dir seg :
  has_byte slash seg = false -> LastIndex (dir +:+ "/" +:+ seg) "/" = strlen dir.
Proof.
  intros Hseg. induction dir as [|c dir IH].
  - rewrite append_nil. change ("/" +:+ seg) with (String slash seg).
    cbn [LastIndex]. rewrite (LastIndex_none _ Hseg). cbn [Z.eqb Z.opp Pos.eqb].
    rewrite prefix_slash, bool_decide_eq_true_2; done.
  - rewrite append_cons. cbn [LastIndex]. rewrite IH.
    destruct (Z.eqb_spec (strlen dir) (-1)) as [E|_].
    + unfold strlen in E. lia.
    + by rewrite strlen_cons.
Qed.

(** The guard of [classname_of] never lets an index through that [s[i:]]
    would panic on. *)
Lemma LastIndex_slice_in_range s :
  let idx := LastIndex s "/" in
  idx > -1 -> 0 <= idx + 1 <= strlen s.
Proof.
  cbv zeta. induction s as [|c s IH]; [done|].
  cbn [LastIndex]. rewrite strlen_cons.
  pose proof (LastIndex_lower s).
  destruct (Z.eqb_spec (LastIndex s "/") (-1)) as [E|E].
  - destruct (String.prefix _ _); [|lia]. unfold strlen. lia.
  - lia.
Qed.

Lemma substring_all s : String.substring 0 (String.length s) s = s.
Proof. induction s as [|c s IH]; [done|]. simpl. by rewrite IH. Qed.

Lemma substring_skip a b m :
  String.substring (String.length a) m (a +:+ b) = String.substring 0 m b.
Proof. induction a as [|c a IH]; [done|]. rewrite append_cons. simpl. apply IH. Qed.

Lemma length_append a b :
  String.length (a +:+ b) = (String.length a + String.length b)%nat.
Proof. induction a as [|c a IH]; [done|]. rewrite append_cons. simpl. by rewrite IH. Qed.

Lemma append_assoc a b c : (a +:+ b) +:+ c = a +:+ b +:+ c.
Proof. induction a as [|x a IH]; [done|]. rewrite !append_cons. by rewrite IH. Qed.

Lemma slice_from_after dir seg :
  slice_from (dir +:+ "/" +:+ seg) (strlen dir + 1) = seg.
Proof.
  unfold slice_from, strlen.
  replace (Z.to_nat (Z.of_nat (String.length dir) + 1))
    with (String.length (dir +:+ "/")) by (rewrite length_append; simpl; lia).
  rewrite <- append_assoc.
  rewrite substring_skip, length_append.
  replace (String.length (dir +:+ "/") + String.length seg - String.length (dir +:+ "/"))%nat
    with (String.length seg) by lia.
  apply substring_all.
Qed.

(** A name with a '/' splits at its last one. *)
Lemma has_byte_split s :
  has_byte slash s = true ->
  exists dir seg, s = dir +:+ "/" +:+ seg /\ has_byte slash seg = false.
Proof.
  induction s as [|c s IH]; [done|].
  simpl has_byte. destruct (has_byte slash s) eqn:Hs.
  - intros _. destruct (IH eq_refl) as (dir & seg & -> & Hseg).
    exists (String c dir), seg. by rewrite append_cons.
  - destruct (decide (c = slash)) as [->|]; [|done]. intros _.
    exists EmptyString, s. by rewrite append_nil.
Qed.

Lemma last_segment_total name : exists seg, last_segment name seg.
Proof.
  destruct (has_byte slash name) eqn:Hs.
  - destruct (has_byte_split _ Hs) as (dir & seg & -> & Hseg).
    exists seg. right. by exists dir.
  - exists name. by left.
Qed.

Lemma last_segment_unique name seg1 seg2 :
  last_segment name seg1 -> last_segment name seg2 -> seg1 = seg2.
Proof.
  assert (Hno : forall dir seg, has_byte slash (dir +:+ "/" +:+ seg) = false -> False).
  { intros dir seg. rewrite has_byte_app. change ("/" +:+ seg) with (String slash seg).
    cbn [has_byte]. destruct (decide (slash = slash)); [|done].
    by rewrite orb_true_r. }
  intros [[H1 ->]|(d1 & -> & H1)] [[H2 E2]|(d2 & E2 & H2)]; try done.
  - subst. by destruct (Hno _ _ H1).
  - by destruct (Hno _ _ H2).
  - rewrite <- (slice_from_after d1 seg1), <- (slice_from_after d2 seg2).
    assert (strlen d1 = strlen d2) as ->.
    { rewrite <- (LastIndex_last d1 seg1 H1), <- (LastIndex_last d2 seg2 H2).
      by rewrite E2. }
    by rewrite E2.
Qed.

Lemma classname_of_split dir seg :
  has_byte slash seg = false ->
  Formatter.classname_of false (dir +:+ "/" +:+ seg) = seg.
Proof.
  intros Hseg. unfold Formatter.classname_of. cbn [negb].
  rewrite (LastIndex_last _ _ Hseg).
  assert ((strlen dir >? -1) = true) as ->
    by (apply Z.gtb_lt; unfold strlen; lia).
  assert ((strlen dir <? strlen (dir +:+ "/" +:+ seg)) = true) as ->.
  { apply Z.ltb_lt. unfold strlen. rewrite !length_append. simpl. lia. }
  cbn [andb]. apply slice_from_after.
Qed.

(** [classname_of] without the full-name option is the last segment. *)
Lemma classname_of_last_segment name :
  last_segment name (Formatter.classname_of false name).
Proof.
  destruct (has_byte slash name) eqn:Hs.
  - destruct (has_byte_split _ Hs) as (dir & seg & -> & Hseg).
    rewrite (classname_of_split _ _ Hseg). right. by exists dir.
  - left. split; [done|].
    unfold Formatter.classname_of. cbn [negb]. by rewrite (LastIndex_none _ Hs).
Qed.

Lemma classname_of_full name : Formatter.classname_of true name = name.
Proof. reflexivity. Qed.

End Strings.

(** Closes the goals left by one iteration of a test loop: a counter
    that was incremented modulo [2^64], or a list that grew by one. *)
Ltac step_counters :=
  repeat match goal with
         | |- context [wrap (wrap ?a + ?b)] => rewrite (wrap_add_l a b)
         | |- wrap _ = wrap _ => f_equal; lia
         | |- _ ++ _ = _ ++ _ => rewrite <- ?app_assoc; reflexivity
         end.

(** ** The loops of [JUnitReportXML] in closed form *)
Section Loops.

Context {Env : Externals}.

Lemma count_result_cons r t tests :
  count_result r (t :: tests)
  = (if decide (parser.Test.Result t = r) then 1 else 0) + count_result r tests.
Proof.
  unfold count_result, len. rewrite filter_cons.
  destruct (decide (parser.Test.Result t = r)); simpl length; lia.
Qed.

Lemma count_result_bounds r tests : 0 <= count_result r tests <= len tests.
Proof.
  unfold count_result, len. pose proof (length_filter (fun t => parser.Test.Result t = r) tests).
  lia.
Qed.

Lemma Formatter_test_loop classname strip tests ts :
  wrap (JUnitTestSuite.Failures ts) = JUnitTestSuite.Failures ts ->
  wrap (JUnitTestSuite.Errors ts) = JUnitTestSuite.Errors ts ->
  wrap (JUnitTestSuite.Skipped ts) = JUnitTestSuite.Skipped ts ->
  fold_left (Formatter.test_step classname strip) tests ts
  = JUnitTestSuite.mk (JUnitTestSuite.Tests ts)
      (wrap (JUnitTestSuite.Failures ts + count_result parser.FAIL tests))
      (wrap (JUnitTestSuite.Errors ts + count_result parser.ERROR tests))
      (wrap (JUnitTestSuite.Skipped ts + count_result parser.SKIP tests))
      (JUnitTestSuite.Time ts) (JUnitTestSuite.Name ts) (JUnitTestSuite.Properties ts)
      (JUnitTestSuite.TestCases ts ++ (testCase_of classname strip <$> tests)).
Proof.
  revert ts. induction tests as [|t tests IH]; intros ts HF HE HS.
  - destruct ts; simpl in *. rewrite !Z.add_0_r, HF, HE, HS, app_nil_r. done.
  - cbn [fold_left]. rewrite IH; clear IH.
    + rewrite !count_result_cons, fmap_cons.
      unfold Formatter.test_step, testCase_of, int_add.
      destruct ts, t as [name d [] out]; cbn; simpl in HF, HE, HS;
        f_equal; repeat case_decide; try done; rewrite ?Z.add_0_l; step_counters.
    + unfold Formatter.test_step, int_add.
      destruct ts, t as [name d [] out]; cbn; auto using wrap_wrap.
    + unfold Formatter.test_step, int_add.
      destruct ts, t as [name d [] out]; cbn; auto using wrap_wrap.
    + unfold Formatter.test_step, int_add.
      destruct ts, t as [name d [] out]; cbn; auto using wrap_wrap.
Qed.

Lemma effective_goVersion_idem gv :
  effective_goVersion (effective_goVersion gv) = effective_goVersion gv.
Proof.
  unfold effective_goVersion.
  destruct (decide (gv = EmptyString)) as [->|Hne].
  - by destruct (decide (runtime_Version = EmptyString)) as [->|].
  - by rewrite decide_False.
Qed.

Lemma Formatter_package_step_eq {B} full strip suites gv (pkg : parser.Package.t B) :
  Formatter.package_step full strip (suites, gv) pkg
  = (JUnitTestSuites.mk
       (JUnitTestSuites.Suites suites ++ [suite_of full strip (effective_goVersion gv) pkg]),
     effective_goVersion gv).
Proof.
  unfold Formatter.package_step, suite_of. f_equal. f_equal. f_equal.
  rewrite Formatter_test_loop.
  - destruct (decide (parser.Package.CoveragePct pkg <> EmptyString)) eqn:E;
      unfold properties_of; rewrite E; reflexivity.
  - by destruct (decide (parser.Package.CoveragePct pkg <> EmptyString)).
  - by destruct (decide (parser.Package.CoveragePct pkg <> EmptyString)).
  - by destruct (decide (parser.Package.CoveragePct pkg <> EmptyString)).
Qed.

Lemma Formatter_package_loop {B} full strip (pkgs : list (parser.Package.t B)) suites gv :
  fst (fold_left (Formatter.package_step full strip) pkgs (suites, gv))
  = JUnitTestSuites.mk
      (JUnitTestSuites.Suites suites
       ++ (suite_of full strip (effective_goVersion gv) <$> pkgs)).
Proof.
  revert suites gv. induction pkgs as [|pkg pkgs IH]; intros suites gv.
  - destruct suites. cbn. by rewrite app_nil_r.
  - cbn [fold_left]. rewrite Formatter_package_step_eq, IH.
    cbn [JUnitTestSuites.Suites]. rewrite effective_goVersion_idem, fmap_cons.
    by rewrite <- app_assoc.
Qed.

(** The suites [formatter.go] assembles: one per package, in order. *)
Lemma Formatter_suites_of_eq {B} (report : parser.Report.t B) gv full strip :
  Formatter.suites_of report gv full strip
  = JUnitTestSuites.mk
      (suite_of full strip (effective_goVersion gv) <$> parser.Report.Packages report).
Proof. unfold Formatter.suites_of. by rewrite Formatter_package_loop. Qed.

End Loops.

(** ** [mergeBenchmarks] against its refinement target *)
Section Merge.

Import parser.

Lemma distinct_names_snoc l x :
  distinct_names (l ++ [x])
  = if decide (x ∈ l) then distinct_names l else distinct_names l ++ [x].
Proof.
  induction l as [|a l IH].
  - cbn. rewrite decide_False by set_solver. done.
  - cbn [app distinct_names]. rewrite IH.
    destruct (decide (x ∈ l)) as [Hin|Hnin].
    + rewrite decide_True by set_solver. done.
    + rewrite filter_app, filter_cons, filter_nil.
      destruct (decide (x = a)) as [->|Hne].
      * rewrite decide_False by naive_solver.
        rewrite decide_True by set_solver. by rewrite app_nil_r.
      * rewrite decide_True by done.
        rewrite decide_False by set_solver. done.
Qed.

Lemma distinct_names_elem l x : x ∈ distinct_names l <-> x ∈ l.
Proof.
  induction l as [|a l IH]; [done|].
  cbn [distinct_names]. rewrite !elem_of_cons, list_elem_of_filter, IH.
  destruct (decide (x = a)); naive_solver.
Qed.

Lemma distinct_names_NoDup l : NoDup (distinct_names l).
Proof.
  induction l as [|a l IH]; [constructor|].
  cbn [distinct_names]. constructor.
  - rewrite list_elem_of_filter. naive_solver.
  - by apply NoDup_filter.
Qed.

Lemma distinct_names_length l : (length (distinct_names l) <= length l)%nat.
Proof.
  induction l as [|a l IH]; [done|].
  cbn [distinct_names length].
  pose proof (length_filter (fun m => m <> a) (distinct_names l)). lia.
Qed.

Lemma filter_other_names (a : string) (l : list string) :
  a ∉ l -> filter (fun m => m <> a) l = l.
Proof.
  induction l as [|b l IH]; [done|].
  intros [Hne Hnin]%not_elem_of_cons.
  rewrite filter_cons, decide_True by done. by rewrite IH.
Qed.

(** A list of names without repetition is its own list of distinct names. *)
Lemma distinct_names_id l : NoDup l -> distinct_names l = l.
Proof.
  induction 1 as [|a l Hnin Hnd IH]; [done|].
  cbn [distinct_names]. rewrite IH. f_equal. by apply filter_other_names.
Qed.

Lemma samples_named_nil n bs :
  samples_named n bs = [] <-> n ∉ Benchmark.Name <$> bs.
Proof.
  unfold samples_named. induction bs as [|b bs IH]; [set_solver|].
  rewrite filter_cons, fmap_cons, not_elem_of_cons.
  destruct (decide (Benchmark.Name b = n)) as [<-|Hne]; [naive_solver|].
  rewrite IH. naive_solver.
Qed.

Lemma samples_named_snoc n bs b :
  samples_named n (bs ++ [b])
  = samples_named n bs ++ (if decide (Benchmark.Name b = n) then [b] else []).
Proof.
  unfold samples_named. rewrite filter_app, filter_cons, filter_nil. done.
Qed.

(** The state of [mergeBenchmarks] after its first loop. *)
Lemma collect_inv bs :
  fst (FormatterBench.collect bs)
  = (fun n => Benchmark.mk n 0 0 0) <$> distinct_names (Benchmark.Name <$> bs)
  /\ forall n,
      snd (FormatterBench.collect bs) !! n
      = if decide (samples_named n bs = []) then None else Some (samples_named n bs).
Proof.
  unfold FormatterBench.collect.
  induction bs as [|b bs [IHm IHb]] using rev_ind.
  - split; [done|]. intros n. cbn [fold_left snd]. by rewrite lookup_empty.
  - rewrite fold_left_app. cbn [fold_left].
    destruct (fold_left FormatterBench.collect_step bs ([], ∅)) as [merged benchmap].
    cbn [fst snd] in *. unfold FormatterBench.collect_step.
    rewrite fmap_app. change (Benchmark.Name <$> [b]) with [Benchmark.Name b].
    rewrite distinct_names_snoc. cbn [fst snd]. split.
    + rewrite (IHb (Benchmark.Name b)).
      destruct (decide (samples_named (Benchmark.Name b) bs = [])) as [E|E].
      * rewrite decide_False by by apply samples_named_nil.
        rewrite fmap_app. by rewrite IHm.
      * rewrite decide_True; [done|].
        destruct (decide (Benchmark.Name b ∈ Benchmark.Name <$> bs)); [done|].
        by apply samples_named_nil in n.
    + intros n. rewrite samples_named_snoc.
      destruct (decide (Benchmark.Name b = n)) as [<-|Hne].
      * rewrite lookup_insert_eq, (IHb (Benchmark.Name b)).
        destruct (samples_named (Benchmark.Name b) bs) as [|x l];
          repeat case_decide; done.
      * rewrite lookup_insert_ne by done. by rewrite app_nil_r.
Qed.

Lemma collect_samples bs n :
  default [] (snd (FormatterBench.collect bs) !! n) = samples_named n bs.
Proof.
  rewrite (proj2 (collect_inv bs) n).
  by destruct (decide (samples_named n bs = [])) as [->|].
Qed.

(** The inner loop adds the samples up, modulo [2^64]. *)
Lemma add_samples_sum samples bm :
  wrap (Benchmark.Duration bm) = Benchmark.Duration bm ->
  wrap (Benchmark.Bytes bm) = Benchmark.Bytes bm ->
  wrap (Benchmark.Allocs bm) = Benchmark.Allocs bm ->
  fold_left FormatterBench.add_sample samples bm
  = Benchmark.mk (Benchmark.Name bm)
      (wrap (Benchmark.Duration bm + sum_of Benchmark.Duration samples))
      (wrap (Benchmark.Bytes bm + sum_of Benchmark.Bytes samples))
      (wrap (Benchmark.Allocs bm + sum_of Benchmark.Allocs samples)).
Proof.
  revert bm. induction samples as [|b samples IH]; intros bm HD HB HA.
  - destruct bm; cbn in *. by rewrite !Z.add_0_r, HD, HB, HA.
  - cbn [fold_left]. rewrite IH by apply wrap_wrap.
    unfold FormatterBench.add_sample, int_add, sum_of. cbn.
    rewrite !wrap_add_l. f_equal; f_equal; lia.
Qed.

Lemma average_new bs n :
  FormatterBench.average (snd (FormatterBench.collect bs)) (Benchmark.mk n 0 0 0)
  = merged_of bs n.
Proof.
  unfold FormatterBench.average, merged_of. cbn [Benchmark.Name].
  rewrite collect_samples, add_samples_sum by done.
  reflexivity.
Qed.

(** [mergeBenchmarks] computes what the spec's words say. *)
Lemma mergeBenchmarks_eq_spec bs : FormatterBench.mergeBenchmarks bs = merge_spec bs.
Proof.
  unfold FormatterBench.mergeBenchmarks, merge_spec.
  pose proof (collect_inv bs) as [Hm _]. pose proof (average_new bs) as Ha.
  destruct (FormatterBench.collect bs) as [merged benchmap]. cbn [fst snd] in *.
  rewrite Hm, <- list_fmap_compose. apply list_fmap_ext. intros _ n _. apply Ha.
Qed.

(** The divisions of the second loop never divide by zero. *)
Lemma mergeBenchmarks_divisor_pos bs bm :
  bm ∈ fst (FormatterBench.collect bs) ->
  0 < len (default [] (snd (FormatterBench.collect bs) !! Benchmark.Name bm)).
Proof.
  rewrite (proj1 (collect_inv bs)), collect_samples.
  intros (n & -> & Hn)%list_elem_of_fmap. cbn [Benchmark.Name].
  rewrite distinct_names_elem in Hn.
  destruct (samples_named n bs) eqn:E; [|unfold len; simpl; lia].
  by apply samples_named_nil in E.
Qed.

Lemma mergeBenchmarks_names bs :
  Benchmark.Name <$> FormatterBench.mergeBenchmarks bs
  = distinct_names (Benchmark.Name <$> bs).
Proof.
  rewrite mergeBenchmarks_eq_spec. unfold merge_spec.
  rewrite <- list_fmap_compose. by rewrite list_fmap_id.
Qed.

Lemma mergeBenchmarks_length bs :
  (length (FormatterBench.mergeBenchmarks bs) <= length bs)%nat.
Proof.
  rewrite <- (length_fmap Benchmark.Name (FormatterBench.mergeBenchmarks bs)).
  rewrite mergeBenchmarks_names.
  pose proof (distinct_names_length (Benchmark.Name <$> bs)) as Hl.
  by rewrite length_fmap in Hl.
Qed.

(** Where the sum of a field fits in 64 bits, it is the integer sum that
    is divided. *)
Lemma int_average_exact total n :
  int_min <= total <= int_max -> 0 < n ->
  int_quot (wrap total) n = total `quot` n.
Proof. intros Ht Hn. rewrite (wrap_id _ Ht). by apply int_quot_pos. Qed.

End Merge.

(** ** The loops of the benchmark variant in closed form *)
Section BenchLoops.

Context {Env : Externals}.

Lemma FormatterBench_test_loop classname tests ts :
  wrap (JUnitTestSuite.Failures ts) = JUnitTestSuite.Failures ts ->
  wrap (JUnitTestSuite.Errors ts) = JUnitTestSuite.Errors ts ->
  wrap (JUnitTestSuite.Skipped ts) = JUnitTestSuite.Skipped ts ->
  fold_left (FormatterBench.test_step classname) tests ts
  = JUnitTestSuite.mk (JUnitTestSuite.Tests ts)
      (wrap (JUnitTestSuite.Failures ts + count_result parser.FAIL tests))
      (wrap (JUnitTestSuite.Errors ts + count_result parser.ERROR tests))
      (wrap (JUnitTestSuite.Skipped ts + count_result parser.SKIP tests))
      (JUnitTestSuite.Time ts) (JUnitTestSuite.Name ts) (JUnitTestSuite.Properties ts)
      (JUnitTestSuite.TestCases ts ++ (bench_testCase_of classname <$> tests)).
Proof.
  revert ts. induction tests as [|t tests IH]; intros ts HF HE HS.
  - destruct ts; simpl in *. rewrite !Z.add_0_r, HF, HE, HS, app_nil_r. done.
  - cbn [fold_left]. rewrite IH; clear IH.
    + rewrite !count_result_cons, fmap_cons.
      unfold FormatterBench.test_step, bench_testCase_of, int_add.
      destruct ts, t as [name d [] out]; cbn; simpl in HF, HE, HS;
        f_equal; repeat case_decide; try done; rewrite ?Z.add_0_l; step_counters.
    + unfold FormatterBench.test_step, int_add.
      destruct ts, t as [name d [] out]; cbn; auto using wrap_wrap.
    + unfold FormatterBench.test_step, int_add.
      destruct ts, t as [name d [] out]; cbn; auto using wrap_wrap.
    + unfold FormatterBench.test_step, int_add.
      destruct ts, t as [name d [] out]; cbn; auto using wrap_wrap.
Qed.

Lemma FormatterBench_benchmark_loop classname merged ts :
  fold_left (FormatterBench.benchmark_step classname) merged ts
  = JUnitTestSuite.set_TestCases
      (JUnitTestSuite.TestCases ts ++ (benchmarkCase_of classname <$> merged)) ts.
Proof.
  revert ts. induction merged as [|b merged IH]; intros ts.
  - destruct ts. cbn. by rewrite app_nil_r.
  - cbn [fold_left]. rewrite IH. destruct ts.
    unfold FormatterBench.benchmark_step, JUnitTestSuite.set_TestCases. cbn.
    by rewrite <- app_assoc.
Qed.

Lemma FormatterBench_package_step_eq {B} suites gv (pkg : parser.Package.t B) merged :
  FormatterBench.package_step_merged (suites, gv) pkg merged
  = (JUnitTestSuites.mk
       (JUnitTestSuites.Suites suites
        ++ [bench_suite_of (effective_goVersion gv) pkg merged]),
     effective_goVersion gv).
Proof.
  unfold FormatterBench.package_step_merged, bench_suite_of. f_equal. f_equal. f_equal.
  rewrite FormatterBench_benchmark_loop, FormatterBench_test_loop.
  - destruct (decide (parser.Package.CoveragePct pkg <> EmptyString)) eqn:E;
      unfold properties_of; rewrite E; reflexivity.
  - by destruct (decide (parser.Package.CoveragePct pkg <> EmptyString)).
  - by destruct (decide (parser.Package.CoveragePct pkg <> EmptyString)).
  - by destruct (decide (parser.Package.CoveragePct pkg <> EmptyString)).
Qed.

Lemma FormatterBench_package_loop pkgs suites gv :
  fst (fold_left FormatterBench.package_step pkgs (suites, gv))
  = JUnitTestSuites.mk
      (JUnitTestSuites.Suites suites
       ++ ((fun pkg =>
              bench_suite_of (effective_goVersion gv) pkg
                (FormatterBench.mergeBenchmarks (parser.Package.Benchmarks pkg)))
           <$> pkgs)).
Proof.
  revert suites gv. induction pkgs as [|pkg pkgs IH]; intros suites gv.
  - destruct suites. cbn. by rewrite app_nil_r.
  - cbn [fold_left]. unfold FormatterBench.package_step at 2.
    rewrite FormatterBench_package_step_eq, IH.
    cbn [JUnitTestSuites.Suites]. rewrite effective_goVersion_idem, fmap_cons.
    by rewrite <- app_assoc.
Qed.

(** The suites the benchmark variant assembles: one per package, in
    order, each with its merged benchmarks. *)
Lemma FormatterBench_suites_of_eq report gv :
  FormatterBench.suites_of report gv
  = JUnitTestSuites.mk
      ((fun pkg =>
          bench_suite_of (effective_goVersion gv) pkg
            (FormatterBench.mergeBenchmarks (parser.Package.Benchmarks pkg)))
       <$> parser.Report.Packages report).
Proof. unfold FormatterBench.suites_of. by rewrite FormatterBench_package_loop. Qed.

End BenchLoops.

(** ** [Store.mergeBenchmarks] refines [FormatterBench.mergeBenchmarks] *)
Section StoreRefinement.

Import parser.

Implicit Types (h : gmap positive Benchmark.t) (ps merged : list positive).

Lemma points_to_weaken h h' ps vs : h ⊆ h' -> points_to h ps vs -> points_to h' ps vs.
Proof.
  intros Hsub Hp. eapply Forall2_impl; [exact Hp|].
  intros p v Hpv. exact (lookup_weaken _ _ _ _ Hpv Hsub).
Qed.

Lemma points_to_mapM h ps vs : points_to h ps vs <-> mapM (h !!.) ps = Some vs.
Proof. unfold points_to. by rewrite mapM_Some. Qed.

Lemma fresh_not_in h0 h : h0 ⊆ h -> h0 !! fresh (dom h) = None.
Proof.
  intros Hsub. eapply lookup_weaken_None; [|exact Hsub].
  apply not_elem_of_dom, is_fresh.
Qed.

Lemma benchmap_insert_rel h0 (benchmap : gmap string (list positive))
    (bv : gmap string (list Benchmark.t)) name p v :
  (forall n, option_Forall2 (points_to h0) (benchmap !! n) (bv !! n)) ->
  h0 !! p = Some v ->
  forall n,
    option_Forall2 (points_to h0)
      (<[name := default [] (benchmap !! name) ++ [p]]> benchmap !! n)
      (<[name := default [] (bv !! name) ++ [v]]> bv !! n).
Proof.
  intros Hmap Hp n. destruct (decide (name = n)) as [<-|Hne].
  - rewrite !lookup_insert_eq. constructor.
    apply Forall2_app; [|by repeat constructor].
    destruct (Hmap name); [done|constructor].
  - rewrite !lookup_insert_ne by done. apply Hmap.
Qed.

(** One iteration of the first loop. *)
Lemma collect_step_rel h0 st stv p v :
  collect_rel h0 st stv -> h0 !! p = Some v ->
  exists st', Store.collect_step (Some st) p = Some st'
              /\ collect_rel h0 st' (FormatterBench.collect_step stv v).
Proof.
  destruct st as [[h merged] benchmap], stv as [mv bv].
  intros (Hsub & Hnd & Hnew & Hpt & Hmap) Hp. cbn [fst snd] in *.
  unfold Store.collect_step, FormatterBench.collect_step.
  cbn [mbind option_bind]. rewrite (lookup_weaken _ _ _ _ Hp Hsub). cbn [mbind option_bind].
  pose proof (benchmap_insert_rel h0 benchmap bv (Benchmark.Name v) p v Hmap Hp) as Hins.
  destruct (Hmap (Benchmark.Name v)) as [locs vals _|].
  - eexists. split; [reflexivity|]. by repeat split.
  - unfold Store.alloc. eexists. split; [reflexivity|].
    pose proof (fresh_not_in h0 h Hsub) as Hq.
    assert (Hhq : h !! fresh (dom h) = None) by apply not_elem_of_dom, is_fresh.
    repeat split; cbn [fst snd].
    + by apply insert_subseteq_r.
    + apply NoDup_app. repeat split; [done| |apply NoDup_singleton].
      intros x Hx ->%list_elem_of_singleton.
      apply list_elem_of_lookup in Hx as [i Hi].
      destruct (Forall2_lookup_l _ _ _ _ _ Hpt Hi) as (y & _ & Hy). congruence.
    + intros q [Hq'| ->%list_elem_of_singleton]%elem_of_app; auto.
    + apply Forall2_app.
      * eapply points_to_weaken; [|exact Hpt]. by apply insert_subseteq.
      * repeat constructor. apply lookup_insert_eq.
    + done.
Qed.

Lemma collect_loop_rel h0 ps vs :
  points_to h0 ps vs ->
  forall st stv, collect_rel h0 st stv ->
  exists st', fold_left Store.collect_step ps (Some st) = Some st'
              /\ collect_rel h0 st' (fold_left FormatterBench.collect_step vs stv).
Proof.
  unfold points_to. induction 1 as [|p v ps vs Hp _ IH]; intros st stv Hrel.
  - by exists st.
  - cbn [fold_left].
    destruct (collect_step_rel h0 st stv p v Hrel Hp) as (st1 & -> & Hrel1).
    by apply IH.
Qed.

Lemma collect_rel_init h0 : collect_rel h0 (h0, [], ∅) ([], ∅).
Proof.
  unfold collect_rel. split; [done|]. split; [constructor|].
  split; [by intros q ?%elem_of_nil|]. split; [constructor|].
  intros n. rewrite !lookup_empty. constructor.
Qed.

(** The inner loop updates the merged object [q] only. *)
Lemma add_sample_loop h0 q locs vals :
  points_to h0 locs vals -> h0 !! q = None ->
  forall h m, h0 ⊆ h -> h !! q = Some m ->
  fold_left (Store.add_sample q) locs (Some h)
  = Some (<[q := fold_left FormatterBench.add_sample vals m]> h).
Proof.
  unfold points_to. intros Hpt Hq.
  induction Hpt as [|p v locs vals Hp _ IH]; intros h m Hsub Hm.
  - cbn. by rewrite insert_id.
  - cbn [fold_left]. unfold Store.add_sample at 2. cbn [mbind option_bind].
    rewrite (lookup_weaken _ _ _ _ Hp Hsub). cbn [mbind option_bind]. rewrite Hm. cbn [mbind option_bind].
    rewrite (IH _ (FormatterBench.add_sample m v)).
    + by rewrite insert_insert_eq.
    + by apply insert_subseteq_r.
    + apply lookup_insert_eq.
Qed.

(** One iteration of the second loop. *)
Lemma average_step h0 (benchmap : gmap string (list positive))
    (bv : gmap string (list Benchmark.t)) h q m :
  (forall n, option_Forall2 (points_to h0) (benchmap !! n) (bv !! n)) ->
  h0 ⊆ h -> h0 !! q = None -> h !! q = Some m ->
  Store.average benchmap (Some h) q = Some (<[q := FormatterBench.average bv m]> h).
Proof.
  intros Hmap Hsub Hq Hm.
  assert (Hs : points_to h0 (default [] (benchmap !! Benchmark.Name m))
                 (default [] (bv !! Benchmark.Name m))).
  { destruct (Hmap (Benchmark.Name m)); [done|constructor]. }
  unfold Store.average, FormatterBench.average. cbn [mbind option_bind].
  rewrite Hm. cbn [mbind option_bind].
  rewrite (add_sample_loop h0 q _ _ Hs Hq h m Hsub Hm). cbn [mbind option_bind].
  rewrite lookup_insert_eq. cbn [mbind option_bind]. rewrite insert_insert_eq.
  unfold len. by rewrite (Forall2_length _ _ _ Hs).
Qed.

Lemma average_loop h0 (benchmap : gmap string (list positive))
    (bv : gmap string (list Benchmark.t)) :
  (forall n, option_Forall2 (points_to h0) (benchmap !! n) (bv !! n)) ->
  forall merged ms h,
    NoDup merged -> (forall q, q ∈ merged -> h0 !! q = None) ->
    h0 ⊆ h -> points_to h merged ms ->
    exists h', fold_left (Store.average benchmap) merged (Some h) = Some h'
               /\ h0 ⊆ h'
               /\ (forall l, l ∉ merged -> h' !! l = h !! l)
               /\ points_to h' merged (FormatterBench.average bv <$> ms).
Proof.
  intros Hmap merged. unfold points_to.
  induction merged as [|q merged IH]; intros ms h Hnd Hnew Hsub Hpt.
  - apply Forall2_nil_inv_l in Hpt as ->. exists h. repeat split; [done|constructor].
  - apply Forall2_cons_inv_l in Hpt as (m & ms' & Hm & Hpt & ->).
    apply NoDup_cons in Hnd as [Hq Hnd].
    assert (Hq0 : h0 !! q = None) by (apply Hnew; left).
    cbn [fold_left]. rewrite (average_step h0 benchmap bv h q m Hmap Hsub Hq0 Hm).
    destruct (IH ms' (<[q := FormatterBench.average bv m]> h)) as (h' & Hf & Hsub' & Hframe & Hpt').
    + done.
    + intros q' Hq'. apply Hnew. by right.
    + by apply insert_subseteq_r.
    + eapply Forall2_impl; [|intros p v Hpv; exact Hpv].
      clear IH Hnew. induction Hpt as [|p v ps vs Hp Hps IHp]; [constructor|].
      apply not_elem_of_cons in Hq as [Hne Hq]. apply NoDup_cons in Hnd as [_ Hnd].
      constructor; [by rewrite lookup_insert_ne|by apply IHp].
    + exists h'. repeat split; [done|done| |].
      * intros l [Hne Hl]%not_elem_of_cons.
        rewrite (Hframe l Hl). by rewrite lookup_insert_ne.
      * rewrite fmap_cons. constructor; [|done].
        rewrite (Hframe q Hq). apply lookup_insert_eq.
Qed.

(** [mergeBenchmarks] on the store: it does not panic on valid pointers,
    leaves every object of the caller as it was, and the objects it
    returns hold the benchmarks that [FormatterBench.mergeBenchmarks]
    computes. *)
Lemma Store_mergeBenchmarks_refines h ps vs :
  points_to h ps vs ->
  exists h' merged,
    Store.mergeBenchmarks h ps = Some (h', merged)
    /\ h ⊆ h'
    /\ points_to h' merged (FormatterBench.mergeBenchmarks vs).
Proof.
  intros Hpt.
  destruct (collect_loop_rel h ps vs Hpt _ _ (collect_rel_init h))
    as ([[h1 merged] benchmap] & Hfold & Hsub & Hnd & Hnew & Hm & Hmap).
  unfold Store.mergeBenchmarks, FormatterBench.mergeBenchmarks. rewrite Hfold.
  fold (FormatterBench.collect vs) in *.
  destruct (FormatterBench.collect vs) as [mv bv]. cbn [fst snd mbind option_bind] in *.
  destruct (average_loop h benchmap bv Hmap merged mv h1 Hnd Hnew Hsub Hm)
    as (h' & -> & Hsub' & _ & Hpt').
  cbn [mbind option_bind]. by exists h', merged.
Qed.

End StoreRefinement.

(** ** The elements of the document *)
Section Document.

Context {Env : Externals}.

Lemma filter_named name (l : list xml_node) :
  Forall (fun c => xml_name c = Some name) l ->
  filter (fun c => xml_name c = Some name) l = l.
Proof.
  induction 1 as [|c l Hc _ IH]; [done|].
  by rewrite filter_cons, decide_True, IH.
Qed.

Lemma testsuite_elems_eq (s : JUnitTestSuites.t) :
  testsuite_elems (xml_of_testsuites s) = xml_of_testsuite <$> JUnitTestSuites.Suites s.
Proof.
  unfold testsuite_elems, xml_child_elems. cbn [xml_of_testsuites xml_children].
  apply filter_named, Forall_fmap, Forall_forall. by intros ts _.
Qed.

Lemma testcase_elems_eq (ts : JUnitTestSuite.t) :
  testcase_elems (xml_of_testsuite ts) = xml_of_testcase <$> JUnitTestSuite.TestCases ts.
Proof.
  unfold testcase_elems, xml_child_elems. cbn [xml_of_testsuite xml_children].
  rewrite filter_app. replace (filter _ (xml_of_properties _)) with (@nil xml_node).
  - apply filter_named, Forall_fmap, Forall_forall. by intros c _.
  - unfold xml_of_properties. destruct (JUnitTestSuite.Properties ts); [done|].
    rewrite filter_cons, decide_False; [done|]. by intros [=].
Qed.

(** The elements of the four kinds of test case. *)
Lemma xml_of_testCase_of classname strip test :
  xml_of_testcase (testCase_of classname strip test)
  = test_elem classname (parser.Test.Name test)
      (Formatter.formatTime (parser.Test.Duration test)) (parser.Test.Result test)
      (output_text strip (parser.Test.Output test)).
Proof. destruct test as [name d [] out]; reflexivity. Qed.

Lemma xml_of_bench_testCase_of classname test :
  xml_of_testcase (bench_testCase_of classname test)
  = test_elem classname (parser.Test.Name test)
      (FormatterBench.formatTime (parser.Test.Duration test)) (parser.Test.Result test)
      (output_text true (parser.Test.Output test)).
Proof. destruct test as [name d [] out]; reflexivity. Qed.

Lemma xml_of_benchmarkCase_of classname b :
  xml_of_testcase (benchmarkCase_of classname b) = benchmark_elem classname b.
Proof. reflexivity. Qed.

(** The [<testsuite>] elements of [formatter.go]'s document. *)
Lemma document_testsuites {B} (report : parser.Report.t B) gv full strip :
  testsuite_elems (document report gv full strip)
  = (fun pkg => xml_of_testsuite (suite_of full strip (effective_goVersion gv) pkg))
    <$> parser.Report.Packages report.
Proof.
  unfold document. rewrite testsuite_elems_eq, Formatter_suites_of_eq.
  cbn [JUnitTestSuites.Suites]. by rewrite <- list_fmap_compose.
Qed.

Lemma suite_of_testcases {B} full strip gv (pkg : parser.Package.t B) :
  testcase_elems (xml_of_testsuite (suite_of full strip gv pkg))
  = (fun test =>
       test_elem (Formatter.classname_of full (parser.Package.Name pkg))
         (parser.Test.Name test) (Formatter.formatTime (parser.Test.Duration test))
         (parser.Test.Result test) (output_text strip (parser.Test.Output test)))
    <$> parser.Package.Tests pkg.
Proof.
  rewrite testcase_elems_eq. cbn [suite_of JUnitTestSuite.TestCases].
  rewrite <- list_fmap_compose. apply list_fmap_ext. intros _ test _.
  apply xml_of_testCase_of.
Qed.

(** The [<testsuite>] elements of the benchmark variant's document. *)
Lemma bench_document_testsuites report gv :
  testsuite_elems (bench_document report gv)
  = (fun pkg =>
       xml_of_testsuite
         (bench_suite_of (effective_goVersion gv) pkg
            (FormatterBench.mergeBenchmarks (parser.Package.Benchmarks pkg))))
    <$> parser.Report.Packages report.
Proof.
  unfold bench_document. rewrite testsuite_elems_eq, FormatterBench_suites_of_eq.
  cbn [JUnitTestSuites.Suites]. by rewrite <- list_fmap_compose.
Qed.

Lemma bench_suite_of_testcases {B} gv (pkg : parser.Package.t B) merged :
  testcase_elems (xml_of_testsuite (bench_suite_of gv pkg merged))
  = ((fun test =>
        test_elem (FormatterBench.classname_of (parser.Package.Name pkg))
          (parser.Test.Name test) (FormatterBench.formatTime (parser.Test.Duration test))
          (parser.Test.Result test) (output_text true (parser.Test.Output test)))
     <$> parser.Package.Tests pkg)
    ++ (benchmark_elem (FormatterBench.classname_of (parser.Package.Name pkg)) <$> merged).
Proof.
  rewrite testcase_elems_eq. cbn [bench_suite_of JUnitTestSuite.TestCases].
  rewrite fmap_app, <- !list_fmap_compose. f_equal.
  apply list_fmap_ext. intros _ test _. apply xml_of_bench_testCase_of.
Qed.

End Document.

(** ** [JUnitReportXML] on the store *)
Section StoreFormatter.

Context {Env : Externals}.

Import parser.

Lemma load_package_weaken h h' (pkg : Package.t positive) pkgv :
  h ⊆ h' -> Store.load_package h pkg = Some pkgv -> Store.load_package h' pkg = Some pkgv.
Proof.
  unfold Store.load_package. intros Hsub.
  destruct (mapM (h !!.) (Package.Benchmarks pkg)) as [bs|] eqn:E; [|done].
  apply points_to_mapM, (points_to_weaken _ _ _ _ Hsub), points_to_mapM in E.
  by rewrite E.
Qed.

Lemma load_report_weaken h h' (report : Report.t positive) reportv :
  h ⊆ h' -> Store.load_report h report = Some reportv ->
  Store.load_report h' report = Some reportv.
Proof.
  unfold Store.load_report. intros Hsub.
  destruct (mapM (Store.load_package h) (Report.Packages report)) as [pkgs|] eqn:E; [|done].
  apply mapM_Some in E.
  assert (E' : mapM (Store.load_package h') (Report.Packages report) = Some pkgs).
  { apply mapM_Some. eapply Forall2_impl; [exact E|].
    intros pkg pkgv Hl. by eapply load_package_weaken. }
  by rewrite E'.
Qed.

(** One iteration of the package loop. *)
Lemma Store_package_step_refines h s (pkg : Package.t positive) pkgv :
  Store.load_package h pkg = Some pkgv ->
  exists h',
    Store.package_step (Some (h, s)) pkg = Some (h', FormatterBench.package_step s pkgv)
    /\ h ⊆ h'.
Proof.
  unfold Store.load_package.
  destruct (mapM (h !!.) (Package.Benchmarks pkg)) as [bs|] eqn:E; [|done].
  cbn [mbind option_bind]. intros [= <-]. apply points_to_mapM in E.
  destruct (Store_mergeBenchmarks_refines h _ _ E) as (h' & merged & Hm & Hsub & Hpt).
  exists h'. split; [|done].
  unfold Store.package_step. cbn [mbind option_bind]. rewrite Hm. cbn [mbind option_bind].
  apply points_to_mapM in Hpt. rewrite Hpt. cbn [mbind option_bind].
  unfold FormatterBench.package_step. cbn [Package.Benchmarks].
  destruct s as [suites gv]. by rewrite !FormatterBench_package_step_eq.
Qed.

Lemma Store_package_loop (pkgs : list (Package.t positive)) pkgvs :
  forall h s,
    Forall2 (fun pkg pkgv => Store.load_package h pkg = Some pkgv) pkgs pkgvs ->
    exists h',
      fold_left Store.package_step pkgs (Some (h, s))
      = Some (h', fold_left FormatterBench.package_step pkgvs s)
      /\ h ⊆ h'.
Proof.
  revert pkgvs. induction pkgs as [|pkg pkgs IH]; intros pkgvs h s Hl.
  - apply Forall2_nil_inv_l in Hl as ->. by exists h.
  - apply Forall2_cons_inv_l in Hl as (pkgv & pkgvs' & Hp & Hl & ->).
    destruct (Store_package_step_refines h s pkg pkgv Hp) as (h1 & Hs & Hsub1).
    destruct (IH pkgvs' h1 (FormatterBench.package_step s pkgv)) as (h' & Hf & Hsub').
    { eapply Forall2_impl; [exact Hl|]. intros p v Hpv. by eapply load_package_weaken. }
    exists h'. cbn [fold_left]. rewrite Hs. split; [done|]. by etrans.
Qed.

(** [JUnitReportXML] on a store whose report is [reportv]: no panic, the
    result of the value-level function, and every object of the caller
    left as it was. *)
Lemma Store_JUnitReportXML_refines {W} {Wr : Writer W} h (report : Report.t positive)
    reportv noXMLHeader gv (w : W) :
  Store.load_report h report = Some reportv ->
  exists h',
    Store.JUnitReportXML h report noXMLHeader gv w
    = Some (h', FormatterBench.JUnitReportXML reportv noXMLHeader gv w)
    /\ h ⊆ h'.
Proof.
  unfold Store.load_report.
  destruct (mapM (Store.load_package h) (Report.Packages report)) as [pkgvs|] eqn:E; [|done].
  intros [= <-]. apply mapM_Some in E.
  destruct (Store_package_loop _ _ h (JUnitTestSuites.mk [], gv) E) as (h' & Hf & Hsub).
  exists h'. split; [|done].
  unfold Store.JUnitReportXML, FormatterBench.JUnitReportXML, FormatterBench.suites_of.
  rewrite Hf. cbn [mbind option_bind Report.Packages].
  destruct (fold_left FormatterBench.package_step pkgvs _) as [suites gv'].
  cbn [fst]. by destruct (xml_MarshalIndent suites).
Qed.

End StoreFormatter.

(** ** Writing to the sink, and the driver's failure count *)
Section Sinks.

Context {Env : Externals}.

Lemma append_newline_nonempty s : s +:+ newline <> EmptyString.
Proof. destruct s; discriminate. Qed.

(** Into a buffer, [JUnitReportXML] appends the header (unless
    suppressed), the marshalled bytes and a newline. *)
Lemma write_out_Buffer noXMLHeader bytes (w : string) :
  Formatter.write_out (Wr := bytes.Buffer) noXMLHeader bytes w
  = w +:+ (if noXMLHeader then EmptyString else xml_Header) +:+ bytes +:+ newline.
Proof.
  unfold Formatter.write_out, bufio.NewWriter, bufio.Write, bufio.WriteByte,
    bufio.WriteString, bufio.Flush.
  destruct noXMLHeader; cbn [negb fst bufio.err bufio.buf bufio.wr].
  - rewrite decide_False by apply append_newline_nonempty.
    cbn. by rewrite !append_assoc.
  - rewrite decide_False by apply append_newline_nonempty.
    cbn. by rewrite !append_assoc.
Qed.

(** With a sink that takes nothing, the sink is left as it was. *)
Lemma write_out_Broken noXMLHeader bytes (w : Demo.closed_pipe) :
  Formatter.write_out (Wr := Demo.Broken) noXMLHeader bytes w = w.
Proof.
  unfold Formatter.write_out, bufio.NewWriter, bufio.Write, bufio.WriteByte,
    bufio.WriteString, bufio.Flush.
  destruct noXMLHeader; cbn [negb fst bufio.err bufio.buf bufio.wr];
    by rewrite decide_False by apply append_newline_nonempty.
Qed.

Lemma count_failures_loop (tests : list parser.Test.t) count :
  fold_left (fun count t => if parser.is_failure t then count + 1 else count) tests count
  = count + len (filter (fun t => parser.is_failure t = true) tests).
Proof.
  revert count. induction tests as [|t tests IH]; intros count.
  - cbn. unfold len. simpl. lia.
  - cbn [fold_left]. rewrite IH, filter_cons.
    destruct (parser.is_failure t); cbn; unfold len; simpl length; lia.
Qed.

Lemma failed_tests_pos (tests : list parser.Test.t) :
  0 < len (filter (fun t => parser.is_failure t = true) tests)
  <-> exists t, t ∈ tests /\ parser.is_failure t = true.
Proof.
  split.
  - destruct (filter _ tests) as [|t l] eqn:E; [by cbn|]. intros _.
    assert (Ht : t ∈ filter (fun t => parser.is_failure t = true) tests)
      by (rewrite E; left).
    apply list_elem_of_filter in Ht as [Hf Ht]. by exists t.
  - intros (t & Ht & Hf).
    assert (Hin : t ∈ filter (fun t => parser.is_failure t = true) tests)
      by (by apply list_elem_of_filter).
    destruct (filter _ tests) as [|x l]; [by apply elem_of_nil in Hin|].
    unfold len. simpl length. lia.
Qed.

Lemma Failures_loop {B} (pkgs : list (parser.Package.t B)) count :
  let total :=
    fold_left
      (fun count p =>
         fold_left (fun count t => if parser.is_failure t then count + 1 else count)
           (parser.Package.Tests p) count)
      pkgs count in
  count <= total
  /\ (count < total <->
      exists pkg test, pkg ∈ pkgs /\ test ∈ parser.Package.Tests pkg
                       /\ parser.is_failure test = true).
Proof.
  cbv zeta. revert count. induction pkgs as [|pkg pkgs IH]; intros count.
  - cbn. split; [lia|]. split; [lia|]. by intros (? & ? & ?%elem_of_nil & _).
  - cbn [fold_left]. rewrite count_failures_loop.
    pose proof (failed_tests_pos (parser.Package.Tests pkg)) as Hpkg.
    pose proof (len_nonneg (filter (fun t => parser.is_failure t = true)
                              (parser.Package.Tests pkg))) as Hk.
    destruct (IH (count + len (filter (fun t => parser.is_failure t = true)
                                 (parser.Package.Tests pkg)))) as [Hle Hiff].
    split; [lia|]. split.
    + intros Hlt.
      destruct (decide (0 < len (filter (fun t => parser.is_failure t = true)
                                   (parser.Package.Tests pkg)))) as [Hpos|Hz].
      * apply Hpkg in Hpos as (t & Ht & Hf). exists pkg, t. repeat split; [left|done|done].
      * destruct Hiff as [Hiff _]. destruct Hiff as (pkg' & t & Hp & Ht & Hf); [lia|].
        exists pkg', t. repeat split; [by right|done|done].
    + intros (pkg' & t & [->|Hp]%elem_of_cons & Ht & Hf).
      * destruct Hpkg as [_ Hpkg]. specialize (Hpkg (ex_intro _ t (conj Ht Hf))). lia.
      * destruct Hiff as [_ Hiff]. specialize (Hiff (ex_intro _ pkg' (ex_intro _ t
          (conj Hp (conj Ht Hf))))). lia.
Qed.

Lemma is_failure_spec (t : parser.Test.t) :
  parser.is_failure t = true
  <-> parser.Test.Result t = parser.FAIL \/ parser.Test.Result t = parser.ERROR.
Proof. unfold parser.is_failure. destruct (parser.Test.Result t); naive_solver. Qed.

(** [report.Failures() > 0] says that some test failed. *)
Lemma Failures_pos {B} (report : parser.Report.t B) :
  (parser.Failures report >? 0) = true <-> has_failure report.
Proof.
  unfold parser.Failures, has_failure.
  destruct (Failures_loop (parser.Report.Packages report) 0) as [_ Hiff].
  rewrite Z.gtb_ltb, Z.ltb_lt, Hiff.
  split; intros (pkg & t & Hp & Ht & Hf); exists pkg, t; by rewrite is_failure_spec in *.
Qed.

End Sinks.

(** ** The claims about [formatter/formatter.go] and the driver *)
Section FormatterClaims.

Import parser.

Lemma Join_concat elems sep : Join elems sep = String.concat sep elems.
Proof.
  induction elems as [|e [|e' rest] IH]; [done|done|].
  cbn [Join String.concat] in *. by rewrite IH.
Qed.

(** The variant without the ANSI option filters every output. *)
Lemma FormatterBench_formatOutput_strips {Env : Externals} lines :
  FormatterBench.formatOutput lines = Formatter.formatOutput lines true.
Proof. reflexivity. Qed.

(** C2: for every Test of every Package, the [<testcase>] element has the
    attributes classname, name and time only, and its children depend on
    the result: for PASS the output as one comment node (none for empty
    output) and no [<failure>], [<error>] or [<skipped>] child; for FAIL
    one [<failure>] child holding the output; for ERROR one [<error>]
    child holding the output; for SKIP one [<skipped>] child holding the
    output. *)
Theorem C2_testcase_children {Env : Externals} {B} (report : Report.t B)
    (goVersion : string) (fullPackageClassname stripANSIEscape : bool)
    (i j : nat) (pkg : Package.t B) (test : Test.t) :
  Report.Packages report !! i = Some pkg ->
  Package.Tests pkg !! j = Some test ->
  exists suite tc,
    testsuite_elems (document report goVersion fullPackageClassname stripANSIEscape) !! i
    = Some suite
    /\ testcase_elems suite !! j = Some tc
    /\ xml_attrs tc
       = [("classname",
           xml_str (Formatter.classname_of fullPackageClassname (Package.Name pkg)));
          ("name", xml_str (Test.Name test));
          ("time", xml_str (Formatter.formatTime (Test.Duration test)))]
    /\ let out := Formatter.formatOutput (Test.Output test) stripANSIEscape in
       match Test.Result test with
       | PASS =>
           xml_children tc = (if decide (out = EmptyString) then [] else [xml_comment out])
           /\ xml_child_elems "failure" tc = []
           /\ xml_child_elems "error" tc = []
           /\ xml_child_elems "skipped" tc = []
       | FAIL =>
           xml_children tc
           = [xml_elem "failure" [("message", xml_str "Failed"); ("type", xml_str EmptyString)]
                [xml_chardata out]]
       | ERROR =>
           xml_children tc
           = [xml_elem "error" [("message", xml_str "Error"); ("type", xml_str EmptyString)]
                [xml_chardata out]]
       | SKIP =>
           xml_children tc = [xml_elem "skipped" [("message", xml_str out)] []]
       end.
Proof.
  intros Hpkg Htest.
  rewrite document_testsuites, list_lookup_fmap, Hpkg. cbn [fmap option_fmap option_map].
  eexists _, _. split; [reflexivity|].
  rewrite suite_of_testcases, list_lookup_fmap, Htest. cbn [fmap option_fmap option_map].
  split; [reflexivity|]. split; [reflexivity|].
  cbv zeta. destruct (Test.Result test); try reflexivity.
  change (output_text stripANSIEscape (Test.Output test))
    with (Formatter.formatOutput (Test.Output test) stripANSIEscape).
  unfold test_elem, expected_children, xml_of_comment, xml_child_elems.
  cbn [xml_children].
  destruct (decide (Formatter.formatOutput (Test.Output test) stripANSIEscape = EmptyString));
    repeat split; reflexivity.
Qed.

Lemma C2_witness :
  Report.Packages Demo.report_tests !! 0%nat = Some Demo.pkg_tests
  /\ Package.Tests Demo.pkg_tests !! 1%nat = Some (Demo.test "TestB" FAIL ["boom"; "trace"])
  /\ exists suite tc,
      testsuite_elems (document (Env := Demo.ext) Demo.report_tests EmptyString false true) !! 0%nat
      = Some suite
      /\ testcase_elems suite !! 1%nat = Some tc
      /\ xml_attrs tc
         = [("classname", xml_str "pkg"); ("name", xml_str "TestB"); ("time", xml_str "1000")]
      /\ xml_children tc
         = [xml_elem "failure" [("message", xml_str "Failed"); ("type", xml_str EmptyString)]
              [xml_chardata ("boom" +:+ newline +:+ "trace")]].
Proof.
  split; [reflexivity|]. split; [reflexivity|].
  exact (C2_testcase_children (Env := Demo.ext) Demo.report_tests EmptyString false true 0 1
           Demo.pkg_tests (Demo.test "TestB" FAIL ["boom"; "trace"]) eq_refl eq_refl).
Defined.

(** C5: every [<testcase>] of a package has as classname the full package
    name when the full-package-classname option is set, and otherwise the
    part of the package name after its last '/', the whole name when it
    has no '/'. *)
Theorem C5_classname {Env : Externals} {B} (report : Report.t B)
    (goVersion : string) (fullPackageClassname stripANSIEscape : bool)
    (i : nat) (pkg : Package.t B) :
  Report.Packages report !! i = Some pkg ->
  exists suite,
    testsuite_elems (document report goVersion fullPackageClassname stripANSIEscape) !! i
    = Some suite
    /\ forall tc, tc ∈ testcase_elems suite ->
         exists classname,
           xml_attr "classname" (xml_attrs tc) = Some (xml_str classname)
           /\ if fullPackageClassname
              then classname = Package.Name pkg
              else last_segment (Package.Name pkg) classname.
Proof.
  intros Hpkg.
  rewrite document_testsuites, list_lookup_fmap, Hpkg. cbn [fmap option_fmap option_map].
  eexists. split; [reflexivity|]. intros tc.
  rewrite suite_of_testcases. intros (test & -> & _)%list_elem_of_fmap.
  exists (Formatter.classname_of fullPackageClassname (Package.Name pkg)).
  split; [reflexivity|].
  destruct fullPackageClassname; [reflexivity|apply classname_of_last_segment].
Qed.

Lemma C5_witness :
  Report.Packages Demo.report_tests !! 0%nat = Some Demo.pkg_tests
  /\ exists suite,
      testsuite_elems (document (Env := Demo.ext) Demo.report_tests EmptyString false false) !! 0%nat
      = Some suite
      /\ forall tc, tc ∈ testcase_elems suite ->
           exists classname,
             xml_attr "classname" (xml_attrs tc) = Some (xml_str classname)
             /\ last_segment "github.com/acme/pkg" classname.
Proof.
  split; [reflexivity|].
  exact (C5_classname (Env := Demo.ext) Demo.report_tests EmptyString false false 0
           Demo.pkg_tests eq_refl).
Defined.

(** C6: the text emitted for a test's output is its lines joined with
    newlines, passed through the ANSI filter when the strip option is set
    and unchanged when it is not. *)
Theorem C6_output_text {Env : Externals} {B} (report : Report.t B)
    (goVersion : string) (fullPackageClassname stripANSIEscape : bool)
    (i j : nat) (pkg : Package.t B) (test : Test.t) :
  Report.Packages report !! i = Some pkg ->
  Package.Tests pkg !! j = Some test ->
  let joined := String.concat newline (Test.Output test) in
  let text := if stripANSIEscape then stripansi_Strip joined else joined in
  Formatter.formatOutput (Test.Output test) stripANSIEscape = text
  /\ exists suite tc,
      testsuite_elems (document report goVersion fullPackageClassname stripANSIEscape) !! i
      = Some suite
      /\ testcase_elems suite !! j = Some tc
      /\ xml_children tc = expected_children (Test.Result test) text.
Proof.
  intros Hpkg Htest. cbv zeta. rewrite <- Join_concat. split; [reflexivity|].
  rewrite document_testsuites, list_lookup_fmap, Hpkg. cbn [fmap option_fmap option_map].
  eexists _, _. split; [reflexivity|].
  rewrite suite_of_testcases, list_lookup_fmap, Htest. cbn [fmap option_fmap option_map].
  split; reflexivity.
Qed.

Lemma C6_witness :
  Report.Packages Demo.report_tests !! 0%nat = Some Demo.pkg_tests
  /\ Package.Tests Demo.pkg_tests !! 1%nat = Some (Demo.test "TestB" FAIL ["boom"; "trace"])
  /\ Formatter.formatOutput (Env := Demo.ext) ["boom"; "trace"] false
     = "boom" +:+ newline +:+ "trace"
  /\ exists suite tc,
      testsuite_elems (document (Env := Demo.ext) Demo.report_tests EmptyString false false) !! 0%nat
      = Some suite
      /\ testcase_elems suite !! 1%nat = Some tc
      /\ xml_children tc = expected_children FAIL ("boom" +:+ newline +:+ "trace").
Proof.
  split; [reflexivity|]. split; [reflexivity|].
  exact (C6_output_text (Env := Demo.ext) Demo.report_tests EmptyString false false 0 1
           Demo.pkg_tests (Demo.test "TestB" FAIL ["boom"; "trace"]) eq_refl eq_refl).
Defined.

(** C9: [JUnitReportXML] returns an error exactly when marshalling the
    suites fails, and then that error; when marshalling succeeds it
    returns nil, whatever the writer does with the bytes. *)
Theorem C9_error_iff_marshal {Env : Externals} {B W} {Wr : Writer W} (report : Report.t B)
    (noXMLHeader : bool) (goVersion : string)
    (fullPackageClassname stripANSIEscape : bool) (w : W) :
  let suites := Formatter.suites_of report goVersion fullPackageClassname stripANSIEscape in
  let returned :=
    fst (Formatter.JUnitReportXML report noXMLHeader goVersion fullPackageClassname
           stripANSIEscape w) in
  match xml_MarshalIndent suites with
  | inl _ => returned = None
  | inr err => returned = Some err
  end.
Proof.
  cbv zeta. unfold Formatter.JUnitReportXML.
  by destruct (xml_MarshalIndent _).
Qed.

(** A report that marshals, written to a closed pipe: no error comes
    back. *)
Example JUnitReportXML_closed_pipe :
  Formatter.JUnitReportXML (Env := Demo.ext) (Wr := Demo.Broken)
    Demo.report_tests false EmptyString false false Demo.ClosedPipe
  = (None, Demo.ClosedPipe).
Proof. reflexivity. Qed.

(** A report that does not marshal: the error comes back and nothing is
    written. *)
Example JUnitReportXML_marshal_error :
  Formatter.JUnitReportXML (Env := Demo.ext) (Wr := bytes.Buffer)
    (Report.mk [Package.mk (B := Benchmark.t) "pkg" 0 [Demo.test "TestA" PASS ["a--b"]] [] EmptyString])
    false EmptyString false false EmptyString
  = (Some "bad comment", EmptyString).
Proof. reflexivity. Qed.

(** C4: a run that read its input and formatted it exits with a non-zero
    status exactly when the set-exit-code option is set and some test of
    the report has result FAIL or ERROR; otherwise it exits with zero. *)
Theorem C4_exit_status {Env : Externals} {B W} {P : CLI.Parser B} {Wr : Writer W}
    (flags : CLI.Flags) (stdin : string) (stdout : W) (report : Report.t B) :
  CLI.parser_Parse stdin (CLI.packageName flags) = inl report ->
  fst (Formatter.JUnitReportXML report (CLI.noXMLHeader flags) (CLI.goVersionFlag flags)
         (CLI.fullPackageClassname flags) (CLI.stripANSIEscape flags) stdout) = None ->
  let status := fst (CLI.main flags 0 stdin stdout) in
  (status <> 0 <-> CLI.setExitCode flags = true /\ has_failure report)
  /\ (status = 0 \/ status = 1).
Proof.
  intros Hparse Hfmt. cbv zeta. unfold CLI.main. cbn [Z.eqb negb]. rewrite Hparse.
  destruct (Formatter.JUnitReportXML _ _ _ _ _ _) as [[err|] out]; [done|].
  pose proof (Failures_pos report) as Hfail.
  destruct (CLI.setExitCode flags), (Failures report >? 0); cbn [andb fst];
    (split; [|auto]); split; try done.
  - intros _. split; [done|]. by apply Hfail.
  - intros [_ Hf]. apply Hfail in Hf. done.
  - by intros [? _].
  - by intros [? _].
Qed.

Lemma C4_witness :
  CLI.parser_Parse (Parser := Demo.one_input) "tests" EmptyString = inl Demo.report_tests
  /\ fst (Formatter.JUnitReportXML (Env := Demo.ext) (Wr := bytes.Buffer)
            Demo.report_tests false EmptyString false false EmptyString) = None
  /\ let status :=
       fst (CLI.main (Env := Demo.ext) (P := Demo.one_input) (Wr := bytes.Buffer)
              (Demo.flags true) 0 "tests" EmptyString) in
     (status <> 0 <-> true = true /\ has_failure Demo.report_tests)
     /\ (status = 0 \/ status = 1).
Proof.
  split; [reflexivity|]. split; [reflexivity|].
  exact (C4_exit_status (Env := Demo.ext) (P := Demo.one_input) (Wr := bytes.Buffer)
           (Demo.flags true) "tests" EmptyString Demo.report_tests eq_refl eq_refl).
Defined.

(** The three runs of the driver on the test doubles. *)
Example main_failing_set_exit_code :
  fst (CLI.main (Env := Demo.ext) (P := Demo.one_input) (Wr := bytes.Buffer)
         (Demo.flags true) 0 "tests" EmptyString) = 1.
Proof. reflexivity. Qed.

Example main_failing_no_exit_code :
  fst (CLI.main (Env := Demo.ext) (P := Demo.one_input) (Wr := bytes.Buffer)
         (Demo.flags false) 0 "tests" EmptyString) = 0.
Proof. reflexivity. Qed.

Example main_passing_set_exit_code :
  fst (CLI.main (Env := Demo.ext) (P := Demo.one_input) (Wr := bytes.Buffer)
         (Demo.flags true) 0 "pass" EmptyString) = 0.
Proof. reflexivity. Qed.

End FormatterClaims.

(** ** The claims that involve the benchmark variant *)
Section BenchClaims.

Import parser.

Lemma samples_named_unique bs b :
  NoDup (Benchmark.Name <$> bs) -> b ∈ bs -> samples_named (Benchmark.Name b) bs = [b].
Proof.
  unfold samples_named. induction bs as [|a bs IH]; [by intros _ ?%elem_of_nil|].
  rewrite fmap_cons, NoDup_cons. intros [Ha Hnd] [->|Hb]%elem_of_cons.
  - rewrite filter_cons, decide_True by done. f_equal. by apply samples_named_nil.
  - rewrite filter_cons, decide_False; [by apply IH|].
    intros E. apply Ha. rewrite E. by apply list_elem_of_fmap_2.
Qed.

(** Without repeated names, and with fields that are values of their Go
    types, merging changes nothing. *)
Lemma merge_spec_id bs :
  NoDup (Benchmark.Name <$> bs) -> Forall benchmark_wf bs -> merge_spec bs = bs.
Proof.
  intros Hnd Hwf. unfold merge_spec.
  rewrite (distinct_names_id _ Hnd), <- list_fmap_compose.
  trans (id <$> bs); [|apply list_fmap_id]. apply list_fmap_ext. intros i b Hb.
  apply list_elem_of_lookup_2 in Hb.
  rewrite Forall_forall in Hwf. destruct (Hwf b Hb) as (HD & HB & HA).
  unfold compose, merged_of. rewrite (samples_named_unique bs b Hnd Hb).
  unfold sum_of, len. cbn [foldr length]. rewrite !Z.add_0_r.
  rewrite !int_average_exact, !Z.quot_1_r by done. by destruct b.
Qed.

Lemma append_empty_r s : s +:+ EmptyString = s.
Proof. induction s as [|c s IH]; [done|]. rewrite append_cons. by rewrite IH. Qed.

(** Into a buffer, each variant appends bytes that do not depend on what
    the buffer held. *)
Lemma Formatter_appends {Env : Externals} {B} (report : Report.t B) noXMLHeader gv full strip :
  exists err bytes, forall w : string,
    Formatter.JUnitReportXML (Wr := bytes.Buffer) report noXMLHeader gv full strip w
    = (err, w +:+ bytes).
Proof.
  unfold Formatter.JUnitReportXML. destruct (xml_MarshalIndent _) as [bytes|err].
  - eexists None, _. intros w. by rewrite write_out_Buffer.
  - exists (Some err), EmptyString. intros w. by rewrite append_empty_r.
Qed.

Lemma FormatterBench_appends {Env : Externals} (report : Report.t Benchmark.t) noXMLHeader gv :
  exists err bytes, forall w : string,
    FormatterBench.JUnitReportXML (Wr := bytes.Buffer) report noXMLHeader gv w
    = (err, w +:+ bytes).
Proof.
  unfold FormatterBench.JUnitReportXML. destruct (xml_MarshalIndent _) as [bytes|err].
  - eexists None, _. intros w. by rewrite write_out_Buffer.
  - exists (Some err), EmptyString. intros w. by rewrite append_empty_r.
Qed.

(** C7: [mergeBenchmarks] returns one benchmark per distinct name, in
    first-occurrence order; its Duration, Bytes and Allocs are the sums of
    the field over the samples of that name, divided by their number with
    truncation.  The sums are those of Go's [int] and [time.Duration]:
    whenever the sum of the integers fits in 64 bits it is that sum that
    is divided. *)
Theorem C7_mergeBenchmarks (bs : list Benchmark.t) :
  FormatterBench.mergeBenchmarks bs = merge_spec bs
  /\ Benchmark.Name <$> FormatterBench.mergeBenchmarks bs
     = distinct_names (Benchmark.Name <$> bs)
  /\ NoDup (Benchmark.Name <$> FormatterBench.mergeBenchmarks bs)
  /\ forall name, name ∈ Benchmark.Name <$> bs ->
       let samples := samples_named name bs in
       let n := len samples in
       0 < n
       /\ exists m,
           m ∈ FormatterBench.mergeBenchmarks bs
           /\ Benchmark.Name m = name
           /\ (int_range (sum_of Benchmark.Duration samples) ->
               Benchmark.Duration m = sum_of Benchmark.Duration samples `quot` n)
           /\ (int_range (sum_of Benchmark.Bytes samples) ->
               Benchmark.Bytes m = sum_of Benchmark.Bytes samples `quot` n)
           /\ (int_range (sum_of Benchmark.Allocs samples) ->
               Benchmark.Allocs m = sum_of Benchmark.Allocs samples `quot` n).
Proof.
  split; [apply mergeBenchmarks_eq_spec|]. split; [apply mergeBenchmarks_names|].
  split; [rewrite mergeBenchmarks_names; apply distinct_names_NoDup|].
  intros name Hname. cbv zeta.
  assert (Hn : 0 < len (samples_named name bs)).
  { destruct (samples_named name bs) eqn:E; [|unfold len; simpl length; lia].
    by apply samples_named_nil in E. }
  split; [done|]. exists (merged_of bs name).
  split.
  { rewrite mergeBenchmarks_eq_spec. unfold merge_spec.
    apply list_elem_of_fmap_2. by apply distinct_names_elem. }
  split; [done|].
  unfold merged_of. cbn [Benchmark.Duration Benchmark.Bytes Benchmark.Allocs].
  repeat split; intros Hr; by apply int_average_exact.
Qed.

Lemma C7_witness :
  "BenchmarkNew" ∈ Benchmark.Name <$> Demo.samples
  /\ int_range (sum_of Benchmark.Duration (samples_named "BenchmarkNew" Demo.samples))
  /\ exists m,
      m ∈ FormatterBench.mergeBenchmarks Demo.samples
      /\ Benchmark.Name m = "BenchmarkNew"
      /\ Benchmark.Duration m = (350 + 357) `quot` 2.
Proof.
  assert (Hin : "BenchmarkNew" ∈ Benchmark.Name <$> Demo.samples) by (cbn; left).
  assert (Hr : int_range (sum_of Benchmark.Duration (samples_named "BenchmarkNew" Demo.samples)))
    by (split; vm_compute; discriminate).
  split; [exact Hin|]. split; [exact Hr|].
  destruct (C7_mergeBenchmarks Demo.samples) as (_ & _ & _ & Hall).
  destruct (Hall "BenchmarkNew" Hin) as (_ & m & Hm & Hname & HD & _).
  exists m. split; [exact Hm|]. split; [exact Hname|]. exact (HD Hr).
Defined.

Example mergeBenchmarks_samples :
  FormatterBench.mergeBenchmarks Demo.samples
  = [Benchmark.mk "BenchmarkNew" 353 80 3; Benchmark.mk "BenchmarkFew" 100 20 1].
Proof. vm_compute. reflexivity. Qed.

(** Two samples whose sum does not fit in 64 bits: the sum wraps around
    before it is divided. *)
Example mergeBenchmarks_wraps :
  FormatterBench.mergeBenchmarks
    [Benchmark.mk "B" 1 (2 ^ 62) 0; Benchmark.mk "B" 1 (2 ^ 62) 0]
  = [Benchmark.mk "B" 1 (- 2 ^ 62) 0].
Proof. vm_compute. reflexivity. Qed.

End BenchClaims.

(** ** Counts, benchmark entries, order and idempotence *)
Section ReportClaims.

Import parser.

(** C1, on [Demo.report_bench]: a package without tests and with three
    benchmark samples under two names gets [tests="2"] from the benchmark
    variant, not the number of its Test entries. *)
Lemma C1_counterexample :
  len (Package.Tests Demo.pkg_bench) = 0
  /\ (fun suite => xml_attr "tests" (xml_attrs suite))
     <$> testsuite_elems (bench_document (Env := Demo.ext) Demo.report_bench EmptyString)
     = [Some (xml_int 2)].
Proof. split; vm_compute; reflexivity. Qed.

(** C1, amended: the [tests] attribute of a [<testsuite>] is the number
    of Test entries of its package, plus, in the variant with a separate
    benchmarks sequence, the number of distinct benchmark names; the
    [failures], [errors] and [skipped] attributes are the numbers of Tests
    with result FAIL, ERROR and SKIP. *)
Theorem C1_suite_counts {Env : Externals} (report : Report.t Benchmark.t)
    (goVersion : string) (fullPackageClassname stripANSIEscape : bool)
    (i : nat) (pkg : Package.t Benchmark.t) :
  Report.Packages report !! i = Some pkg ->
  len (Package.Tests pkg) + len (Package.Benchmarks pkg) <= int_max ->
  let tests := Package.Tests pkg in
  (exists suite,
      testsuite_elems (document report goVersion fullPackageClassname stripANSIEscape) !! i
      = Some suite
      /\ xml_attr "tests" (xml_attrs suite) = Some (xml_int (len tests))
      /\ xml_attr "failures" (xml_attrs suite) = Some (xml_int (count_result FAIL tests))
      /\ xml_attr "errors" (xml_attrs suite) = Some (xml_int (count_result ERROR tests))
      /\ xml_attr "skipped" (xml_attrs suite) = Some (xml_int (count_result SKIP tests)))
  /\ (exists suite,
      testsuite_elems (bench_document report goVersion) !! i = Some suite
      /\ xml_attr "tests" (xml_attrs suite)
         = Some (xml_int (len tests
                          + len (distinct_names (Benchmark.Name <$> Package.Benchmarks pkg))))
      /\ xml_attr "failures" (xml_attrs suite) = Some (xml_int (count_result FAIL tests))
      /\ xml_attr "errors" (xml_attrs suite) = Some (xml_int (count_result ERROR tests))
      /\ xml_attr "skipped" (xml_attrs suite) = Some (xml_int (count_result SKIP tests))).
Proof.
  intros Hpkg Hlen. cbv zeta.
  pose proof (len_nonneg (Package.Tests pkg)) as Ht.
  pose proof (len_nonneg (Package.Benchmarks pkg)) as Hb.
  assert (Hcount : forall r, wrap (count_result r (Package.Tests pkg))
                             = count_result r (Package.Tests pkg)).
  { intros r. pose proof (count_result_bounds r (Package.Tests pkg)).
    apply wrap_id. unfold int_min, int_max in *. lia. }
  split.
  - rewrite document_testsuites, list_lookup_fmap, Hpkg. cbn [fmap option_fmap option_map].
    eexists. split; [reflexivity|]. unfold suite_of, xml_of_testsuite. cbn.
    by rewrite !Hcount.
  - rewrite bench_document_testsuites, list_lookup_fmap, Hpkg.
    cbn [fmap option_fmap option_map].
    eexists. split; [reflexivity|]. unfold bench_suite_of, xml_of_testsuite. cbn.
    rewrite !Hcount. repeat split. do 2 f_equal.
    assert (Hm : len (distinct_names (Benchmark.Name <$> Package.Benchmarks pkg))
                 = len (FormatterBench.mergeBenchmarks (Package.Benchmarks pkg))).
    { rewrite <- mergeBenchmarks_names. unfold len. by rewrite length_fmap. }
    rewrite Hm. unfold int_add. apply wrap_id.
    pose proof (mergeBenchmarks_length (Package.Benchmarks pkg)).
    unfold len, int_min, int_max in *. lia.
Qed.

Lemma C1_witness :
  Report.Packages Demo.report_tests !! 0%nat = Some Demo.pkg_tests
  /\ len (Package.Tests Demo.pkg_tests) + len (Package.Benchmarks Demo.pkg_tests) <= int_max
  /\ (exists suite,
        testsuite_elems (document (Env := Demo.ext) Demo.report_tests EmptyString false false) !! 0%nat
        = Some suite
        /\ xml_attr "tests" (xml_attrs suite) = Some (xml_int 4)
        /\ xml_attr "failures" (xml_attrs suite) = Some (xml_int 1)
        /\ xml_attr "errors" (xml_attrs suite) = Some (xml_int 1)
        /\ xml_attr "skipped" (xml_attrs suite) = Some (xml_int 1))
  /\ (exists suite,
        testsuite_elems (bench_document (Env := Demo.ext) Demo.report_tests EmptyString) !! 0%nat
        = Some suite
        /\ xml_attr "tests" (xml_attrs suite) = Some (xml_int (4 + 0))
        /\ xml_attr "failures" (xml_attrs suite) = Some (xml_int 1)
        /\ xml_attr "errors" (xml_attrs suite) = Some (xml_int 1)
        /\ xml_attr "skipped" (xml_attrs suite) = Some (xml_int 1)).
Proof.
  assert (Hlen : len (Package.Tests Demo.pkg_tests)
                 + len (Package.Benchmarks Demo.pkg_tests) <= int_max)
    by (vm_compute; discriminate).
  split; [reflexivity|]. split; [exact Hlen|].
  exact (C1_suite_counts (Env := Demo.ext) Demo.report_tests EmptyString false false 0
           Demo.pkg_tests eq_refl Hlen).
Defined.

(** C3, on [Demo.report_bench]: three Benchmark records, two of them
    samples of [BenchmarkNew] (350 and 357 ns), give two benchmark entries;
    the entry of [BenchmarkNew] carries 353 ns, the time of neither
    record. *)
Lemma C3_counterexample :
  Package.Benchmarks Demo.pkg_bench
  = [Benchmark.mk "BenchmarkNew" 350 80 3; Benchmark.mk "BenchmarkFew" 100 20 1;
     Benchmark.mk "BenchmarkNew" 357 81 4]
  /\ testsuite_elems (bench_document (Env := Demo.ext) Demo.report_bench EmptyString)
     ≫= testcase_elems
     = [xml_elem "testcase"
          [("classname", xml_str "bench"); ("name", xml_str "BenchmarkNew");
           ("time", xml_str "353")] [];
        xml_elem "testcase"
          [("classname", xml_str "bench"); ("name", xml_str "BenchmarkFew");
           ("time", xml_str "100")] []].
Proof. split; vm_compute; reflexivity. Qed.

(** C3, amended: after the test cases of a package's Tests, the suite
    holds one [<testcase>] per distinct benchmark name, for the merged
    benchmark of that name; it carries the classname, the benchmark's name
    and the time of the merged benchmark, and has no child at all.  Where
    no name repeats, these are the package's Benchmark records themselves,
    each with its own time. *)
Theorem C3_benchmark_entries {Env : Externals} (report : Report.t Benchmark.t)
    (goVersion : string) (i : nat) (pkg : Package.t Benchmark.t) :
  Report.Packages report !! i = Some pkg ->
  let classname := FormatterBench.classname_of (Package.Name pkg) in
  let entry (b : Benchmark.t) :=
    xml_elem "testcase"
      [("classname", xml_str classname); ("name", xml_str (Benchmark.Name b));
       ("time", xml_str (FormatterBench.formatBenchmarkTime (Benchmark.Duration b)))]
      [] in
  exists suite,
    testsuite_elems (bench_document report goVersion) !! i = Some suite
    /\ drop (length (Package.Tests pkg)) (testcase_elems suite)
       = entry <$> merge_spec (Package.Benchmarks pkg)
    /\ (NoDup (Benchmark.Name <$> Package.Benchmarks pkg) ->
        Forall benchmark_wf (Package.Benchmarks pkg) ->
        drop (length (Package.Tests pkg)) (testcase_elems suite)
        = entry <$> Package.Benchmarks pkg).
Proof.
  intros Hpkg. cbv zeta.
  rewrite bench_document_testsuites, list_lookup_fmap, Hpkg.
  cbn [fmap option_fmap option_map].
  eexists. split; [reflexivity|].
  rewrite bench_suite_of_testcases, mergeBenchmarks_eq_spec.
  rewrite drop_app_length'; [|by rewrite length_fmap].
  split; [reflexivity|]. intros Hnd Hwf. by rewrite merge_spec_id.
Qed.

Lemma C3_witness :
  Report.Packages Demo.report_bench !! 0%nat = Some Demo.pkg_bench
  /\ exists suite,
      testsuite_elems (bench_document (Env := Demo.ext) Demo.report_bench EmptyString) !! 0%nat
      = Some suite
      /\ drop 0 (testcase_elems suite)
         = (fun b =>
              xml_elem "testcase"
                [("classname", xml_str "bench"); ("name", xml_str (Benchmark.Name b));
                 ("time", xml_str (pretty (Benchmark.Duration b)))] [])
           <$> merge_spec Demo.samples.
Proof.
  split; [reflexivity|].
  destruct (C3_benchmark_entries (Env := Demo.ext) Demo.report_bench EmptyString 0 Demo.pkg_bench
              eq_refl) as (suite & Hs & Hd & _).
  exists suite. split; [exact Hs|exact Hd].
Defined.

(** C10, on [Demo.report_bench]: the benchmarks sequence has the entries
    New, Few, New; the document has the entries New, Few: the third entry
    of the sequence has none of its own. *)
Lemma C10_counterexample :
  Benchmark.Name <$> Package.Benchmarks Demo.pkg_bench
  = ["BenchmarkNew"; "BenchmarkFew"; "BenchmarkNew"]
  /\ (fun tc => xml_attr "name" (xml_attrs tc))
     <$> (testsuite_elems (bench_document (Env := Demo.ext) Demo.report_bench EmptyString)
          ≫= testcase_elems)
     = [Some (xml_str "BenchmarkNew"); Some (xml_str "BenchmarkFew")].
Proof. split; vm_compute; reflexivity. Qed.

(** C10, amended: the [<testsuite>] elements are those of the Report's
    Packages, in order and one each; the [<testcase>] elements of a suite
    are those of the package's Tests, in order and one each, followed in
    the variant with a separate benchmarks sequence by one entry per
    distinct benchmark name, in the order in which the names first occur. *)
Theorem C10_order {Env : Externals} (report : Report.t Benchmark.t)
    (goVersion : string) (fullPackageClassname stripANSIEscape : bool)
    (i : nat) (pkg : Package.t Benchmark.t) :
  Report.Packages report !! i = Some pkg ->
  let test_names := (fun t => Some (xml_str (Test.Name t))) <$> Package.Tests pkg in
  let name_of (e : xml_node) := xml_attr "name" (xml_attrs e) in
  (length (testsuite_elems (document report goVersion fullPackageClassname stripANSIEscape))
   = length (Report.Packages report)
   /\ exists suite,
       testsuite_elems (document report goVersion fullPackageClassname stripANSIEscape) !! i
       = Some suite
       /\ name_of suite = Some (xml_str (Package.Name pkg))
       /\ testcase_elems suite
          = (fun t =>
               test_elem (Formatter.classname_of fullPackageClassname (Package.Name pkg))
                 (Test.Name t) (Formatter.formatTime (Test.Duration t)) (Test.Result t)
                 (Formatter.formatOutput (Test.Output t) stripANSIEscape))
            <$> Package.Tests pkg
       /\ name_of <$> testcase_elems suite = test_names)
  /\ (length (testsuite_elems (bench_document report goVersion))
      = length (Report.Packages report)
      /\ exists suite,
          testsuite_elems (bench_document report goVersion) !! i = Some suite
          /\ name_of suite = Some (xml_str (Package.Name pkg))
          /\ take (length (Package.Tests pkg)) (testcase_elems suite)
             = (fun t =>
                  test_elem (FormatterBench.classname_of (Package.Name pkg))
                    (Test.Name t) (FormatterBench.formatTime (Test.Duration t))
                    (Test.Result t) (FormatterBench.formatOutput (Test.Output t)))
               <$> Package.Tests pkg
          /\ name_of <$> testcase_elems suite
             = test_names
               ++ ((fun n => Some (xml_str n))
                   <$> distinct_names (Benchmark.Name <$> Package.Benchmarks pkg))).
Proof.
  intros Hpkg. cbv zeta. split.
  - rewrite document_testsuites, length_fmap, list_lookup_fmap, Hpkg.
    cbn [fmap option_fmap option_map]. split; [done|].
    eexists. split; [reflexivity|]. split; [reflexivity|].
    rewrite suite_of_testcases. split; [reflexivity|].
    rewrite <- list_fmap_compose. by apply list_fmap_ext.
  - rewrite bench_document_testsuites, length_fmap, list_lookup_fmap, Hpkg.
    cbn [fmap option_fmap option_map]. split; [done|].
    eexists. split; [reflexivity|]. split; [reflexivity|].
    rewrite bench_suite_of_testcases. split.
    + rewrite take_app_length'; [reflexivity|by rewrite length_fmap].
    + rewrite fmap_app, <- !list_fmap_compose. f_equal.
      rewrite <- mergeBenchmarks_names, <- list_fmap_compose. by apply list_fmap_ext.
Qed.

Lemma C10_witness :
  Report.Packages Demo.report_tests !! 0%nat = Some Demo.pkg_tests
  /\ exists suite,
      testsuite_elems (document (Env := Demo.ext) Demo.report_tests EmptyString false false) !! 0%nat
      = Some suite
      /\ (fun e => xml_attr "name" (xml_attrs e)) <$> testcase_elems suite
         = (fun t => Some (xml_str (Test.Name t))) <$> Package.Tests Demo.pkg_tests.
Proof.
  split; [reflexivity|].
  destruct (C10_order (Env := Demo.ext) Demo.report_tests EmptyString false false 0 Demo.pkg_tests
              eq_refl) as [(_ & suite & Hs & _ & _ & Hn) _].
  exists suite. split; [exact Hs|exact Hn].
Defined.

(** C8: formatting a report twice with the same configuration writes
    the same bytes and returns the same error both times.  [formatter.go]
    never reads through the report's benchmark pointers; the benchmark
    variant, run on a store, allocates and updates objects of its own and
    leaves the report's objects as they were, so that the second run, in
    the store the first one left, reads the same report. *)
Theorem C8_idempotent {Env : Externals} (h : gmap positive Benchmark.t)
    (report : Report.t positive) (reportv : Report.t Benchmark.t)
    (noXMLHeader : bool) (goVersion : string)
    (fullPackageClassname stripANSIEscape : bool) (w1 w2 : string) :
  Store.load_report h report = Some reportv ->
  (exists err bytes,
      Formatter.JUnitReportXML (Wr := bytes.Buffer) report noXMLHeader goVersion
        fullPackageClassname stripANSIEscape w1 = (err, w1 +:+ bytes)
      /\ Formatter.JUnitReportXML (Wr := bytes.Buffer) report noXMLHeader goVersion
           fullPackageClassname stripANSIEscape w2 = (err, w2 +:+ bytes))
  /\ (exists err bytes h1 h2,
      Store.JUnitReportXML (Wr := bytes.Buffer) h report noXMLHeader goVersion w1
      = Some (h1, (err, w1 +:+ bytes))
      /\ Store.JUnitReportXML (Wr := bytes.Buffer) h1 report noXMLHeader goVersion w2
         = Some (h2, (err, w2 +:+ bytes))
      /\ Store.load_report h1 report = Some reportv).
Proof.
  intros Hload. split.
  - destruct (Formatter_appends report noXMLHeader goVersion fullPackageClassname
                stripANSIEscape) as (err & bytes & Hw).
    exists err, bytes. by rewrite !Hw.
  - destruct (FormatterBench_appends reportv noXMLHeader goVersion) as (err & bytes & Hw).
    destruct (Store_JUnitReportXML_refines (Wr := bytes.Buffer) h report reportv
                noXMLHeader goVersion w1 Hload) as (h1 & Hrun1 & Hsub1).
    pose proof (load_report_weaken h h1 report reportv Hsub1 Hload) as Hload1.
    destruct (Store_JUnitReportXML_refines (Wr := bytes.Buffer) h1 report reportv
                noXMLHeader goVersion w2 Hload1) as (h2 & Hrun2 & _).
    exists err, bytes, h1, h2. rewrite Hrun1, Hrun2, !Hw. done.
Qed.

Lemma C8_witness :
  Store.load_report Demo.store Demo.report_bench_ref = Some Demo.report_bench
  /\ exists err bytes h1 h2,
      Store.JUnitReportXML (Env := Demo.ext) (Wr := bytes.Buffer) Demo.store
        Demo.report_bench_ref false EmptyString EmptyString
      = Some (h1, (err, EmptyString +:+ bytes))
      /\ Store.JUnitReportXML (Env := Demo.ext) (Wr := bytes.Buffer) h1
           Demo.report_bench_ref false EmptyString EmptyString
         = Some (h2, (err, EmptyString +:+ bytes))
      /\ Store.load_report h1 Demo.report_bench_ref = Some Demo.report_bench.
Proof.
  assert (Hload : Store.load_report Demo.store Demo.report_bench_ref = Some Demo.report_bench)
    by (vm_compute; reflexivity).
  split; [exact Hload|].
  exact (proj2 (C8_idempotent (Env := Demo.ext) Demo.store Demo.report_bench_ref
                  Demo.report_bench false EmptyString false false EmptyString EmptyString Hload)).
Defined.

(** The first run leaves a store that differs from the one it started
    in: the merged benchmarks are new objects. *)
Example JUnitReportXML_allocates :
  (fun r => dom (fst r))
  <$> Store.JUnitReportXML (Env := Demo.ext) (Wr := bytes.Buffer) Demo.store
        Demo.report_bench_ref false EmptyString EmptyString
  = Some (list_to_set [1; 2; 3; 4; 5]%positive)
  /\ dom Demo.store = list_to_set [1; 2; 3]%positive.
Proof. split; vm_compute; reflexivity. Qed.

End ReportClaims.

(** ** Further properties of the documents *)
Section DocumentFacts.

Import parser.

Lemma len_fmap {A C} (f : A -> C) (l : list A) : len (f <$> l) = len l.
Proof. unfold len. by rewrite length_fmap. Qed.

(** Every test has one of the four results. *)
Lemma count_partition (tests : list Test.t) :
  len tests
  = count_result PASS tests + count_result FAIL tests
    + count_result SKIP tests + count_result ERROR tests.
Proof.
  induction tests as [|t tests IH]; [done|].
  rewrite !count_result_cons. unfold len in *. cbn [length].
  destruct t as [name d [] out]; cbn [Test.Result]; repeat case_decide; try done; lia.
Qed.

Lemma filter_not_named name name' (l : list xml_node) :
  name' <> name ->
  Forall (fun c => xml_name c = Some name') l ->
  filter (fun c => xml_name c = Some name) l = [].
Proof.
  intros Hne. induction 1 as [|c l Hc _ IH]; [done|].
  rewrite filter_cons, decide_False; [done|]. rewrite Hc. by intros [=].
Qed.

Lemma properties_elems_eq (ts : JUnitTestSuite.t) :
  xml_child_elems "properties" (xml_of_testsuite ts)
  = xml_of_properties (JUnitTestSuite.Properties ts).
Proof.
  unfold xml_child_elems. cbn [xml_of_testsuite xml_children].
  rewrite filter_app.
  rewrite (filter_not_named "properties" "testcase"
             (xml_of_testcase <$> JUnitTestSuite.TestCases ts)); [|done|].
  2:{ apply Forall_fmap, Forall_forall. by intros c _. }
  rewrite app_nil_r. unfold xml_of_properties.
  destruct (JUnitTestSuite.Properties ts) as [|p ps]; [done|].
  by rewrite filter_cons, decide_True, filter_nil.
Qed.

Lemma property_elems_eq (ps : list JUnitProperty.t) :
  xml_child_elems "property" (xml_elem "properties" [] (xml_of_property <$> ps))
  = xml_of_property <$> ps.
Proof.
  unfold xml_child_elems. cbn [xml_children].
  apply filter_named, Forall_fmap, Forall_forall. by intros q _.
Qed.

Lemma property_pairs_eq (ts : JUnitTestSuite.t) :
  property_pairs (xml_of_testsuite ts)
  = (fun p => (Some (xml_str (JUnitProperty.Name p)), Some (xml_str (JUnitProperty.Value p))))
    <$> JUnitTestSuite.Properties ts.
Proof.
  unfold property_pairs. rewrite properties_elems_eq. unfold xml_of_properties.
  destruct (JUnitTestSuite.Properties ts) as [|p ps]; [done|].
  cbn [mbind list_bind]. rewrite app_nil_r, property_elems_eq.
  by rewrite <- list_fmap_compose.
Qed.

Lemma properties_of_pairs {B} gv (pkg : Package.t B) :
  (fun p => (Some (xml_str (JUnitProperty.Name p)), Some (xml_str (JUnitProperty.Value p))))
  <$> properties_of gv pkg
  = (Some (xml_str "go.version"), Some (xml_str gv))
    :: (if decide (Package.CoveragePct pkg = EmptyString) then []
        else [(Some (xml_str "coverage.statements.pct"),
               Some (xml_str (Package.CoveragePct pkg)))]).
Proof. unfold properties_of. by repeat case_decide. Qed.

(** X1: in the document of [formatter.go], the [tests] attribute of every
    [<testsuite>] is the number of its [<testcase>] elements. *)
Theorem X1_tests_attr_is_testcase_count {Env : Externals} {B} (report : Report.t B) (goVersion : string)
    (fullPackageClassname stripANSIEscape : bool) :
  Forall (fun suite =>
            xml_attr "tests" (xml_attrs suite)
            = Some (xml_int (len (testcase_elems suite))))
    (testsuite_elems (document report goVersion fullPackageClassname stripANSIEscape)).
Proof.
  rewrite document_testsuites. apply Forall_fmap, Forall_forall. intros pkg _.
  cbn [compose]. rewrite suite_of_testcases, len_fmap. reflexivity.
Qed.

(** X2: in a suite of [formatter.go], failures, errors and skipped are
    not negative and add up to at most tests; what is left of tests is the
    number of Tests with result PASS. *)
Theorem X2_counts_partition {Env : Externals} {B} (report : Report.t B) (goVersion : string)
    (fullPackageClassname stripANSIEscape : bool) (i : nat) (pkg : Package.t B) :
  Report.Packages report !! i = Some pkg ->
  len (Package.Tests pkg) <= int_max ->
  exists suite t f e s,
    testsuite_elems (document report goVersion fullPackageClassname stripANSIEscape) !! i
    = Some suite
    /\ xml_attr "tests" (xml_attrs suite) = Some (xml_int t)
    /\ xml_attr "failures" (xml_attrs suite) = Some (xml_int f)
    /\ xml_attr "errors" (xml_attrs suite) = Some (xml_int e)
    /\ xml_attr "skipped" (xml_attrs suite) = Some (xml_int s)
    /\ 0 <= f /\ 0 <= e /\ 0 <= s /\ f + e + s <= t
    /\ t - (f + e + s) = count_result PASS (Package.Tests pkg).
Proof.
  intros Hpkg Hlen.
  rewrite document_testsuites, list_lookup_fmap, Hpkg. cbn [fmap option_fmap option_map].
  pose proof (count_partition (Package.Tests pkg)) as Hpart.
  pose proof (count_result_bounds PASS (Package.Tests pkg)).
  pose proof (count_result_bounds FAIL (Package.Tests pkg)).
  pose proof (count_result_bounds ERROR (Package.Tests pkg)).
  pose proof (count_result_bounds SKIP (Package.Tests pkg)).
  assert (Hcount : forall r, wrap (count_result r (Package.Tests pkg))
                             = count_result r (Package.Tests pkg)).
  { intros r. pose proof (count_result_bounds r (Package.Tests pkg)).
    apply wrap_id. unfold int_min, int_max in *. lia. }
  eexists _, _, _, _, _. split; [reflexivity|].
  unfold suite_of, xml_of_testsuite. cbn. rewrite !Hcount.
  repeat (split; [reflexivity|]). lia.
Qed.

Lemma X2_witness :
  Report.Packages Demo.report_tests !! 0%nat = Some Demo.pkg_tests
  /\ len (Package.Tests Demo.pkg_tests) <= int_max
  /\ exists suite t f e s,
      testsuite_elems (document (Env := Demo.ext) Demo.report_tests EmptyString false false)
        !! 0%nat = Some suite
      /\ xml_attr "tests" (xml_attrs suite) = Some (xml_int t)
      /\ xml_attr "failures" (xml_attrs suite) = Some (xml_int f)
      /\ xml_attr "errors" (xml_attrs suite) = Some (xml_int e)
      /\ xml_attr "skipped" (xml_attrs suite) = Some (xml_int s)
      /\ 0 <= f /\ 0 <= e /\ 0 <= s /\ f + e + s <= t
      /\ t - (f + e + s) = count_result PASS (Package.Tests Demo.pkg_tests).
Proof.
  assert (Hlen : len (Package.Tests Demo.pkg_tests) <= int_max)
    by (vm_compute; discriminate).
  split; [reflexivity|]. split; [exact Hlen|].
  exact (X2_counts_partition (Env := Demo.ext) Demo.report_tests EmptyString false false 0
           Demo.pkg_tests eq_refl Hlen).
Defined.

(** X3: in both variants the properties of a suite are, in this order,
    [go.version], whose value is the goVersion argument or, when that is
    empty, the runtime's version, the same in every suite, and
    [coverage.statements.pct] with the package's coverage, present exactly
    when the coverage is not empty. *)
Theorem X3_properties {Env : Externals} (report : Report.t Benchmark.t) (goVersion : string)
    (fullPackageClassname stripANSIEscape : bool) (i : nat) (pkg : Package.t Benchmark.t) :
  Report.Packages report !! i = Some pkg ->
  let version := if decide (goVersion = EmptyString) then runtime_Version else goVersion in
  let expected :=
    (Some (xml_str "go.version"), Some (xml_str version))
    :: (if decide (Package.CoveragePct pkg = EmptyString) then []
        else [(Some (xml_str "coverage.statements.pct"),
               Some (xml_str (Package.CoveragePct pkg)))]) in
  (exists suite,
      testsuite_elems (document report goVersion fullPackageClassname stripANSIEscape) !! i
      = Some suite
      /\ property_pairs suite = expected)
  /\ (exists suite,
      testsuite_elems (bench_document report goVersion) !! i = Some suite
      /\ property_pairs suite = expected).
Proof.
  intros Hpkg. cbv zeta. split.
  - rewrite document_testsuites, list_lookup_fmap, Hpkg. cbn [fmap option_fmap option_map].
    eexists. split; [reflexivity|].
    rewrite property_pairs_eq. cbn [suite_of JUnitTestSuite.Properties].
    apply properties_of_pairs.
  - rewrite bench_document_testsuites, list_lookup_fmap, Hpkg.
    cbn [fmap option_fmap option_map].
    eexists. split; [reflexivity|].
    rewrite property_pairs_eq. cbn [bench_suite_of JUnitTestSuite.Properties].
    apply properties_of_pairs.
Qed.

Lemma X3_witness :
  Report.Packages Demo.report_tests !! 0%nat = Some Demo.pkg_tests
  /\ exists suite,
      testsuite_elems (document (Env := Demo.ext) Demo.report_tests EmptyString false false)
        !! 0%nat = Some suite
      /\ property_pairs suite = [(Some (xml_str "go.version"), Some (xml_str "go1.13"))].
Proof.
  split; [reflexivity|].
  exact (proj1 (X3_properties (Env := Demo.ext) Demo.report_tests EmptyString false false 0
                  Demo.pkg_tests eq_refl)).
Defined.

(** X4: formatting the packages of two reports in one report gives the
    suites of the first followed by the suites of the second. *)
Theorem X4_packages_append {Env : Externals} {B} (pkgs1 pkgs2 : list (Package.t B)) (goVersion : string)
    (fullPackageClassname stripANSIEscape : bool) :
  JUnitTestSuites.Suites
    (Formatter.suites_of (Report.mk (pkgs1 ++ pkgs2)) goVersion fullPackageClassname
       stripANSIEscape)
  = JUnitTestSuites.Suites
      (Formatter.suites_of (Report.mk pkgs1) goVersion fullPackageClassname stripANSIEscape)
    ++ JUnitTestSuites.Suites
         (Formatter.suites_of (Report.mk pkgs2) goVersion fullPackageClassname
            stripANSIEscape).
Proof.
  rewrite !Formatter_suites_of_eq. cbn [JUnitTestSuites.Suites Report.Packages].
  apply fmap_app.
Qed.

(** X5: into a [bytes.Buffer], [JUnitReportXML] appends the XML header
    unless noXMLHeader is set, then the marshalled bytes, then one
    newline; when marshalling fails it appends nothing. *)
Theorem X5_written_bytes {Env : Externals} {B} (report : Report.t B) (noXMLHeader : bool)
    (goVersion : string) (fullPackageClassname stripANSIEscape : bool) (w : string) :
  let written :=
    snd (Formatter.JUnitReportXML (Wr := bytes.Buffer) report noXMLHeader goVersion
           fullPackageClassname stripANSIEscape w) in
  match xml_MarshalIndent
          (Formatter.suites_of report goVersion fullPackageClassname stripANSIEscape) with
  | inl bytes =>
      written
      = w +:+ (if noXMLHeader then EmptyString else xml_Header) +:+ bytes +:+ newline
  | inr _ => written = w
  end.
Proof.
  cbv zeta. unfold Formatter.JUnitReportXML.
  destruct (xml_MarshalIndent _); cbn [snd]; [apply write_out_Buffer|done].
Qed.

(** X6: without the full-package-classname option, the classname has no
    '/', the package name ends with it, and taking the classname of a
    classname changes nothing. *)
Theorem X6_classname_segment (pkgName : string) :
  let classname := Formatter.classname_of false pkgName in
  has_byte slash classname = false
  /\ (exists dir, pkgName = dir +:+ classname)
  /\ Formatter.classname_of false classname = classname.
Proof.
  cbv zeta.
  assert (Hidem : forall c, has_byte slash c = false -> Formatter.classname_of false c = c).
  { intros c Hc. unfold Formatter.classname_of. cbn [negb]. by rewrite (LastIndex_none _ Hc). }
  destruct (classname_of_last_segment pkgName) as [[Hno ->]|(dir & Hname & Hno)].
  - split; [done|]. split; [by exists EmptyString|by apply Hidem].
  - split; [done|]. split; [|by apply Hidem].
    exists (dir +:+ "/"). by rewrite append_assoc.
Qed.

(** X7: in the benchmark variant every [<testcase>] of a package, for a
    test or for a benchmark, has as classname the part of the package name
    after its last '/'. *)
Theorem X7_bench_classname {Env : Externals} (report : Report.t Benchmark.t) (goVersion : string)
    (i : nat) (pkg : Package.t Benchmark.t) :
  Report.Packages report !! i = Some pkg ->
  exists suite,
    testsuite_elems (bench_document report goVersion) !! i = Some suite
    /\ Forall (fun tc =>
                 exists classname,
                   xml_attr "classname" (xml_attrs tc) = Some (xml_str classname)
                   /\ last_segment (Package.Name pkg) classname)
         (testcase_elems suite).
Proof.
  intros Hpkg.
  rewrite bench_document_testsuites, list_lookup_fmap, Hpkg.
  cbn [fmap option_fmap option_map].
  eexists. split; [reflexivity|].
  rewrite bench_suite_of_testcases. apply Forall_app.
  split; apply Forall_fmap, Forall_forall; intros x _;
    exists (Formatter.classname_of false (Package.Name pkg));
    (split; [reflexivity|apply classname_of_last_segment]).
Qed.

Lemma X7_witness :
  Report.Packages Demo.report_bench !! 0%nat = Some Demo.pkg_bench
  /\ exists suite,
      testsuite_elems (bench_document (Env := Demo.ext) Demo.report_bench EmptyString)
        !! 0%nat = Some suite
      /\ Forall (fun tc =>
                   exists classname,
                     xml_attr "classname" (xml_attrs tc) = Some (xml_str classname)
                     /\ last_segment "package/bench" classname)
           (testcase_elems suite).
Proof.
  split; [reflexivity|].
  exact (X7_bench_classname (Env := Demo.ext) Demo.report_bench EmptyString 0
           Demo.pkg_bench eq_refl).
Defined.

End DocumentFacts.

(** ** Further properties of [mergeBenchmarks] *)
Section MergeFacts.

Import parser.

Lemma distinct_names_full l : length (distinct_names l) = length l <-> NoDup l.
Proof.
  split; [|by intros ->%distinct_names_id].
  induction l as [|a l IH]; [constructor|].
  cbn [distinct_names length]. intros [= Hlen].
  pose proof (length_filter (fun m => m <> a) (distinct_names l)) as Hf.
  pose proof (distinct_names_length l) as Hd.
  constructor; [|apply IH; lia].
  intros Ha. apply distinct_names_elem in Ha.
  pose proof (length_filter_lt (fun m => m <> a) (distinct_names l) a Ha) as Hlt.
  assert (length (filter (fun m => m <> a) (distinct_names l)) < length (distinct_names l))%nat
    by (apply Hlt; naive_solver).
  lia.
Qed.

Lemma merge_spec_wf bs : Forall benchmark_wf (merge_spec bs).
Proof.
  unfold merge_spec. apply Forall_fmap, Forall_forall. intros n _.
  unfold compose, benchmark_wf, merged_of, int_range, int_quot.
  cbn [Benchmark.Duration Benchmark.Bytes Benchmark.Allocs].
  repeat split; apply wrap_range.
Qed.

Lemma sum_of_Permutation f (l l' : list Benchmark.t) :
  l ≡ₚ l' -> sum_of f l = sum_of f l'.
Proof.
  unfold sum_of. induction 1 as [|x l l' _ IH|x y l|l l' l'' _ IH1 _ IH2];
    cbn [foldr]; [done|by rewrite IH|lia|congruence].
Qed.

Lemma samples_named_Permutation n (l l' : list Benchmark.t) :
  l ≡ₚ l' -> samples_named n l ≡ₚ samples_named n l'.
Proof.
  unfold samples_named. induction 1 as [|x l l' _ IH|x y l|l l' l'' _ IH1 _ IH2].
  - done.
  - rewrite !filter_cons. case_decide; [by constructor|done].
  - rewrite !filter_cons. repeat case_decide; try done. apply perm_swap.
  - by etrans.
Qed.

Lemma merged_of_Permutation bs bs' n : bs ≡ₚ bs' -> merged_of bs n = merged_of bs' n.
Proof.
  intros Hp. pose proof (samples_named_Permutation n _ _ Hp) as Hs.
  unfold merged_of, len.
  by rewrite (Permutation_length Hs), !(sum_of_Permutation _ _ _ Hs).
Qed.

(** Between [n] times a lower and [n] times an upper bound, the truncated
    quotient by [n] lies between the bounds. *)
Lemma quot_between s n lo hi :
  0 < n -> n * lo <= s <= n * hi -> lo <= s `quot` n <= hi.
Proof.
  intros Hn [Hlo Hhi]. destruct (Z.le_gt_cases 0 s) as [Hs|Hs].
  - rewrite Z.quot_div_nonneg by lia. split.
    + by apply Z.div_le_lower_bound.
    + by apply Z.div_le_upper_bound.
  - assert (Hq : s `quot` n = - ((- s) `div` n)).
    { rewrite <- (Z.quot_div_nonneg (- s) n) by lia.
      rewrite Z.quot_opp_l by lia. lia. }
    rewrite Hq.
    assert ((- s) `div` n <= - lo) by (apply Z.div_le_upper_bound; lia).
    assert (- hi <= (- s) `div` n) by (apply Z.div_le_lower_bound; lia).
    lia.
Qed.

Lemma sum_of_between f (l : list Benchmark.t) lo hi :
  (forall b, b ∈ l -> lo <= f b <= hi) ->
  len l * lo <= sum_of f l <= len l * hi.
Proof.
  induction l as [|x l IH]; intros Hb; [unfold len; cbn; lia|].
  assert (Hx : lo <= f x <= hi) by (apply Hb; left).
  destruct IH as [IH1 IH2]; [intros b ?; apply Hb; by right|].
  unfold sum_of in *. cbn [foldr]. unfold len in *. cbn [length].
  rewrite Nat2Z.inj_succ, <- Z.add_1_r, !Z.mul_add_distr_r. lia.
Qed.

Lemma field_min f (l : list Benchmark.t) :
  l <> [] -> exists b, b ∈ l /\ forall x, x ∈ l -> f b <= f x.
Proof.
  induction l as [|a l IH]; [done|]. intros _.
  destruct l as [|a' l'].
  - exists a. split; [left|]. intros x ->%list_elem_of_singleton. lia.
  - destruct IH as (b & Hb & Hmin); [done|].
    destruct (Z.le_gt_cases (f a) (f b)) as [Hle|Hgt].
    + exists a. split; [left|]. intros x [->|Hx]%elem_of_cons; [lia|].
      specialize (Hmin x Hx). lia.
    + exists b. split; [by right|]. intros x [->|Hx]%elem_of_cons; [lia|by apply Hmin].
Qed.

Lemma field_max f (l : list Benchmark.t) :
  l <> [] -> exists b, b ∈ l /\ forall x, x ∈ l -> f x <= f b.
Proof.
  intros Hl. destruct (field_min (fun b => - f b) l Hl) as (b & Hb & Hmin).
  exists b. split; [done|]. intros x Hx. specialize (Hmin x Hx). lia.
Qed.

(** The truncated mean of a non-empty list of samples lies between the
    least and the greatest sample. *)
Lemma mean_between f (samples : list Benchmark.t) :
  samples <> [] ->
  exists b1 b2,
    b1 ∈ samples /\ b2 ∈ samples
    /\ f b1 <= sum_of f samples `quot` len samples <= f b2.
Proof.
  intros Hne.
  destruct (field_min f samples Hne) as (b1 & Hb1 & Hmin).
  destruct (field_max f samples Hne) as (b2 & Hb2 & Hmax).
  exists b1, b2. split; [done|]. split; [done|].
  apply quot_between.
  - destruct samples; [done|]. unfold len. cbn [length]. lia.
  - apply sum_of_between. intros b Hb. split; [by apply Hmin|by apply Hmax].
Qed.

(** X8: [mergeBenchmarks] returns as many benchmarks as the input has
    distinct names: never more than it was given, none exactly for an
    empty input, and as many as it was given exactly when no name
    repeats. *)
Theorem X8_merge_length (bs : list Benchmark.t) :
  length (FormatterBench.mergeBenchmarks bs)
  = length (distinct_names (Benchmark.Name <$> bs))
  /\ (length (FormatterBench.mergeBenchmarks bs) <= length bs)%nat
  /\ (FormatterBench.mergeBenchmarks bs = [] <-> bs = [])
  /\ (length (FormatterBench.mergeBenchmarks bs) = length bs
      <-> NoDup (Benchmark.Name <$> bs)).
Proof.
  assert (Hlen : length (FormatterBench.mergeBenchmarks bs)
                 = length (distinct_names (Benchmark.Name <$> bs))).
  { by rewrite <- mergeBenchmarks_names, length_fmap. }
  split; [done|]. split; [apply mergeBenchmarks_length|]. split.
  - split; [|by intros ->].
    intros Hnil. rewrite Hnil in Hlen. destruct bs as [|b bs]; [done|].
    cbn in Hlen. lia.
  - rewrite Hlen, <- (length_fmap Benchmark.Name bs). apply distinct_names_full.
Qed.

(** X9: merging merged benchmarks changes nothing. *)
Theorem X9_merge_idempotent (bs : list Benchmark.t) :
  FormatterBench.mergeBenchmarks (FormatterBench.mergeBenchmarks bs)
  = FormatterBench.mergeBenchmarks bs.
Proof.
  rewrite (mergeBenchmarks_eq_spec (FormatterBench.mergeBenchmarks bs)).
  apply merge_spec_id.
  - rewrite mergeBenchmarks_names. apply distinct_names_NoDup.
  - rewrite mergeBenchmarks_eq_spec. apply merge_spec_wf.
Qed.



(** X11: where the sums of the samples of its name fit in 64 bits, each
    of Duration, Bytes and Allocs of a merged benchmark lies between the
    least and the greatest value of that field among those samples. *)
Theorem X11_merge_between (bs : list Benchmark.t) (m : Benchmark.t) :
  m ∈ FormatterBench.mergeBenchmarks bs ->
  let samples := samples_named (Benchmark.Name m) bs in
  int_range (sum_of Benchmark.Duration samples) ->
  int_range (sum_of Benchmark.Bytes samples) ->
  int_range (sum_of Benchmark.Allocs samples) ->
  (exists b1 b2, b1 ∈ samples /\ b2 ∈ samples
     /\ Benchmark.Duration b1 <= Benchmark.Duration m <= Benchmark.Duration b2)
  /\ (exists b1 b2, b1 ∈ samples /\ b2 ∈ samples
        /\ Benchmark.Bytes b1 <= Benchmark.Bytes m <= Benchmark.Bytes b2)
  /\ (exists b1 b2, b1 ∈ samples /\ b2 ∈ samples
        /\ Benchmark.Allocs b1 <= Benchmark.Allocs m <= Benchmark.Allocs b2).
Proof.
  rewrite mergeBenchmarks_eq_spec. unfold merge_spec.
  intros (n & -> & Hn)%list_elem_of_fmap. cbv zeta. cbn [merged_of Benchmark.Name].
  rewrite distinct_names_elem in Hn.
  assert (Hne : samples_named n bs <> []).
  { intros E. by apply samples_named_nil in E. }
  assert (Hpos : 0 < len (samples_named n bs)).
  { destruct (samples_named n bs); [done|]. unfold len. cbn [length]. lia. }
  intros HD HB HA.
  unfold merged_of. cbn [Benchmark.Duration Benchmark.Bytes Benchmark.Allocs].
  rewrite !int_average_exact by done.
  repeat split; by apply mean_between.
Qed.

Lemma X11_witness :
  let m := Benchmark.mk "BenchmarkNew" 353 80 3 in
  m ∈ FormatterBench.mergeBenchmarks Demo.samples
  /\ exists b1 b2,
      b1 ∈ samples_named "BenchmarkNew" Demo.samples
      /\ b2 ∈ samples_named "BenchmarkNew" Demo.samples
      /\ Benchmark.Duration b1 <= 353 <= Benchmark.Duration b2.
Proof.
  cbv zeta.
  assert (Hm : Benchmark.mk "BenchmarkNew" 353 80 3
               ∈ FormatterBench.mergeBenchmarks Demo.samples)
    by (vm_compute; left).
  split; [exact Hm|].
  refine (proj1 (X11_merge_between Demo.samples (Benchmark.mk "BenchmarkNew" 353 80 3)
                   Hm _ _ _)); split; vm_compute; discriminate.
Defined.

(** X12: the order of the samples decides only the order of the result:
    two lists with the same samples give the same merged benchmarks. *)
Theorem X12_merge_permutation (bs bs' : list Benchmark.t) :
  bs ≡ₚ bs' ->
  FormatterBench.mergeBenchmarks bs ≡ₚ FormatterBench.mergeBenchmarks bs'.
Proof.
  intros Hp. rewrite !mergeBenchmarks_eq_spec. unfold merge_spec.
  assert (Hn : distinct_names (Benchmark.Name <$> bs)
               ≡ₚ distinct_names (Benchmark.Name <$> bs')).
  { apply NoDup_Permutation; [apply distinct_names_NoDup..|].
    intros n. rewrite !distinct_names_elem. by rewrite Hp. }
  replace (merged_of bs <$> distinct_names (Benchmark.Name <$> bs))
    with (merged_of bs' <$> distinct_names (Benchmark.Name <$> bs)).
  - by apply fmap_Permutation.
  - apply list_fmap_ext. intros _ n _. symmetry. by apply merged_of_Permutation.
Qed.

Lemma X12_witness :
  Demo.samples ≡ₚ Fixtures.samples_reordered
  /\ FormatterBench.mergeBenchmarks Demo.samples
     ≡ₚ FormatterBench.mergeBenchmarks Fixtures.samples_reordered.
Proof.
  assert (Hp : Demo.samples ≡ₚ Fixtures.samples_reordered).
  { exact (Permutation_app_comm
             [Benchmark.mk "BenchmarkNew" 350 80 3; Benchmark.mk "BenchmarkFew" 100 20 1]
             [Benchmark.mk "BenchmarkNew" 357 81 4]). }
  split; [exact Hp|]. exact (X12_merge_permutation _ _ Hp).
Defined.

End MergeFacts.

(** ** Further properties of the benchmark variant *)
Section BenchFacts.

Import parser.

Lemma valid_points_to (h : gmap positive Benchmark.t) (ps : list positive) :
  Forall (fun p => is_Some (h !! p)) ps -> exists vs, points_to h ps vs.
Proof.
  intros Hv. destruct (mapM_is_Some_2 (h !!.) ps Hv) as [vs Hvs].
  exists vs. by apply points_to_mapM.
Qed.

(** X13: on a store, [mergeBenchmarks] given valid pointers does not
    panic; the pointers it returns are distinct new objects, none of them
    an object the caller had, they hold the merged benchmarks, and every
    object of the caller is left as it was. *)
Theorem X13_merge_allocates (h : gmap positive Benchmark.t) (ps : list positive) :
  Forall (fun p => is_Some (h !! p)) ps ->
  exists h' merged vs,
    Store.mergeBenchmarks h ps = Some (h', merged)
    /\ points_to h ps vs
    /\ NoDup merged
    /\ Forall (fun q => h !! q = None) merged
    /\ (forall p v, h !! p = Some v -> h' !! p = Some v)
    /\ points_to h' merged (FormatterBench.mergeBenchmarks vs).
Proof.
  intros [vs Hpt]%valid_points_to.
  destruct (collect_loop_rel h ps vs Hpt _ _ (collect_rel_init h))
    as ([[h1 merged] benchmap] & Hfold & Hsub & Hnd & Hnew & Hm & Hmap).
  unfold Store.mergeBenchmarks. rewrite Hfold.
  fold (FormatterBench.collect vs) in *.
  destruct (FormatterBench.collect vs) as [mv bv] eqn:Ecollect.
  cbn [fst snd mbind option_bind] in *.
  destruct (average_loop h benchmap bv Hmap merged mv h1 Hnd Hnew Hsub Hm)
    as (h' & -> & Hsub' & _ & Hpt').
  cbn [mbind option_bind]. exists h', merged, vs.
  split; [done|]. split; [done|]. split; [done|].
  split; [by apply Forall_forall|]. split.
  - intros p v Hp. exact (lookup_weaken _ _ _ _ Hp Hsub').
  - unfold FormatterBench.mergeBenchmarks. by rewrite Ecollect.
Qed.

Lemma X13_witness :
  Forall (fun p => is_Some (Demo.store !! p)) [1; 2; 3]%positive
  /\ exists h' merged vs,
      Store.mergeBenchmarks Demo.store [1; 2; 3]%positive = Some (h', merged)
      /\ points_to Demo.store [1; 2; 3]%positive vs
      /\ NoDup merged
      /\ Forall (fun q => Demo.store !! q = None) merged
      /\ (forall p v, Demo.store !! p = Some v -> h' !! p = Some v)
      /\ points_to h' merged (FormatterBench.mergeBenchmarks vs).
Proof.
  assert (Hv : Forall (fun p => is_Some (Demo.store !! p)) [1; 2; 3]%positive).
  { repeat constructor; vm_compute; eexists; reflexivity. }
  split; [exact Hv|]. exact (X13_merge_allocates Demo.store [1; 2; 3]%positive Hv).
Defined.

(** X14: in the benchmark variant, too, the [tests] attribute of a suite
    is the number of its [<testcase>] elements, benchmark entries
    included. *)
Theorem X14_bench_tests_attr {Env : Externals} (report : Report.t Benchmark.t)
    (goVersion : string) (i : nat) (pkg : Package.t Benchmark.t) :
  Report.Packages report !! i = Some pkg ->
  len (Package.Tests pkg) + len (Package.Benchmarks pkg) <= int_max ->
  exists suite,
    testsuite_elems (bench_document report goVersion) !! i = Some suite
    /\ xml_attr "tests" (xml_attrs suite) = Some (xml_int (len (testcase_elems suite))).
Proof.
  intros Hpkg Hlen.
  rewrite bench_document_testsuites, list_lookup_fmap, Hpkg.
  cbn [fmap option_fmap option_map].
  eexists. split; [reflexivity|].
  rewrite bench_suite_of_testcases, len_app, !len_fmap.
  unfold bench_suite_of, xml_of_testsuite. cbn. do 2 f_equal.
  unfold int_add. apply wrap_id.
  pose proof (mergeBenchmarks_length (Package.Benchmarks pkg)).
  unfold len, int_min, int_max in *. lia.
Qed.

Lemma X14_witness :
  Report.Packages Demo.report_bench !! 0%nat = Some Demo.pkg_bench
  /\ len (Package.Tests Demo.pkg_bench) + len (Package.Benchmarks Demo.pkg_bench) <= int_max
  /\ exists suite,
      testsuite_elems (bench_document (Env := Demo.ext) Demo.report_bench EmptyString)
        !! 0%nat = Some suite
      /\ xml_attr "tests" (xml_attrs suite) = Some (xml_int (len (testcase_elems suite))).
Proof.
  assert (Hlen : len (Package.Tests Demo.pkg_bench)
                 + len (Package.Benchmarks Demo.pkg_bench) <= int_max)
    by (vm_compute; discriminate).
  split; [reflexivity|]. split; [exact Hlen|].
  exact (X14_bench_tests_attr (Env := Demo.ext) Demo.report_bench EmptyString 0
           Demo.pkg_bench eq_refl Hlen).
Defined.

(** X15: for a package without benchmarks, the benchmark variant and
    [formatter.go] with the ANSI option set and the full-classname option
    unset build the same suite but for the times: the same counts, name
    and properties, and test cases with the same classnames, names and
    children. *)
Theorem X15_variants_agree {Env : Externals} (report : Report.t Benchmark.t)
    (goVersion : string) (i : nat) (pkg : Package.t Benchmark.t) :
  Report.Packages report !! i = Some pkg ->
  Package.Benchmarks pkg = [] ->
  len (Package.Tests pkg) <= int_max ->
  exists suite suite',
    testsuite_elems (document report goVersion false true) !! i = Some suite
    /\ testsuite_elems (bench_document report goVersion) !! i = Some suite'
    /\ testsuite_view suite = testsuite_view suite'
    /\ testcase_view <$> testcase_elems suite = testcase_view <$> testcase_elems suite'.
Proof.
  intros Hpkg Hb Hlen.
  rewrite document_testsuites, bench_document_testsuites, !list_lookup_fmap, Hpkg.
  cbn [fmap option_fmap option_map]. rewrite Hb.
  change (FormatterBench.mergeBenchmarks []) with (@nil Benchmark.t).
  eexists _, _. split; [reflexivity|]. split; [reflexivity|]. split.
  - unfold testsuite_view. rewrite !property_pairs_eq. f_equal.
    assert (E : int_add (len (Package.Tests pkg)) (len (@nil Benchmark.t))
                = len (Package.Tests pkg)).
    { unfold int_add. change (len (@nil Benchmark.t)) with 0. rewrite Z.add_0_r.
      apply wrap_id. pose proof (len_nonneg (Package.Tests pkg)).
      unfold int_min, int_max in *. lia. }
    unfold suite_of, bench_suite_of, xml_of_testsuite. rewrite E. reflexivity.
  - rewrite suite_of_testcases, bench_suite_of_testcases, app_nil_r.
    rewrite <- !list_fmap_compose. by apply list_fmap_ext.
Qed.

Lemma X15_witness :
  Report.Packages Demo.report_tests !! 0%nat = Some Demo.pkg_tests
  /\ Package.Benchmarks Demo.pkg_tests = []
  /\ len (Package.Tests Demo.pkg_tests) <= int_max
  /\ exists suite suite',
      testsuite_elems (document (Env := Demo.ext) Demo.report_tests EmptyString false true)
        !! 0%nat = Some suite
      /\ testsuite_elems (bench_document (Env := Demo.ext) Demo.report_tests EmptyString)
           !! 0%nat = Some suite'
      /\ testsuite_view suite = testsuite_view suite'
      /\ testcase_view <$> testcase_elems suite = testcase_view <$> testcase_elems suite'.
Proof.
  assert (Hlen : len (Package.Tests Demo.pkg_tests) <= int_max)
    by (vm_compute; discriminate).
  split; [reflexivity|]. split; [reflexivity|]. split; [exact Hlen|].
  exact (X15_variants_agree (Env := Demo.ext) Demo.report_tests EmptyString 0
           Demo.pkg_tests eq_refl eq_refl Hlen).
Defined.

End BenchFacts.

(** ** Further properties of the driver and of the formatter test *)
Section DriverFacts.

Import parser.


Lemma Printf_Buffer (w s : string) : CLI.Printf (Wr := bytes.Buffer) w s = w +:+ s.
Proof. reflexivity. Qed.

(** X17: what a failed run leaves on standard output.  With positional
    arguments nothing is written; when the input cannot be read, only the
    line "Error reading input: " with the error; when marshalling fails,
    only the line "Error writing XML: " with the error, and no XML. *)
Theorem X17_main_failures {Env : Externals} {B} {P : CLI.Parser B}
    (flags : CLI.Flags) (stdin stdout : string) :
  (forall NArg, NArg <> 0 ->
     CLI.main (Wr := bytes.Buffer) flags NArg stdin stdout = (1, stdout))
  /\ (forall err,
        CLI.parser_Parse stdin (CLI.packageName flags) = inr err ->
        CLI.main (Wr := bytes.Buffer) flags 0 stdin stdout
        = (1, stdout +:+ "Error reading input: " +:+ err +:+ newline))
  /\ (forall report err,
        CLI.parser_Parse stdin (CLI.packageName flags) = inl report ->
        xml_MarshalIndent
          (Formatter.suites_of report (CLI.goVersionFlag flags)
             (CLI.fullPackageClassname flags) (CLI.stripANSIEscape flags)) = inr err ->
        CLI.main (Wr := bytes.Buffer) flags 0 stdin stdout
        = (1, stdout +:+ "Error writing XML: " +:+ err +:+ newline)).
Proof.
  split; [|split].
  - intros NArg Hne. unfold CLI.main.
    destruct (Z.eqb_spec NArg 0) as [->|_]; [done|reflexivity].
  - intros err Hparse. unfold CLI.main. cbn [Z.eqb negb]. rewrite Hparse.
    by rewrite Printf_Buffer.
  - intros report err Hparse Hm. unfold CLI.main. cbn [Z.eqb negb]. rewrite Hparse.
    unfold Formatter.JUnitReportXML. rewrite Hm. by rewrite Printf_Buffer.
Qed.

Lemma X17_witness :
  CLI.parser_Parse (Parser := Fixtures.three_inputs) "dashes" EmptyString
  = inl Fixtures.report_dashes
  /\ xml_MarshalIndent (Env := Demo.ext)
       (Formatter.suites_of (Env := Demo.ext) Fixtures.report_dashes EmptyString false false)
     = inr "bad comment"
  /\ CLI.main (Env := Demo.ext) (P := Fixtures.three_inputs) (Wr := bytes.Buffer)
       (Demo.flags true) 0 "dashes" EmptyString
     = (1, EmptyString +:+ "Error writing XML: " +:+ "bad comment" +:+ newline).
Proof.
  split; [reflexivity|]. split; [reflexivity|].
  exact (proj2 (proj2 (X17_main_failures (Env := Demo.ext) (P := Fixtures.three_inputs)
                         (Demo.flags true) "dashes" EmptyString))
           Fixtures.report_dashes "bad comment" eq_refl eq_refl).
Defined.

(** X18: a run that parses and marshals its input writes the whole
    report to standard output, the header unless no-xml-header is set,
    the marshalled bytes and a newline, whatever set-exit-code and the
    test results make of the exit status. *)
Theorem X18_main_writes_report {Env : Externals} {B} {P : CLI.Parser B}
    (flags : CLI.Flags) (stdin stdout : string) (report : Report.t B) (bytes : string) :
  CLI.parser_Parse stdin (CLI.packageName flags) = inl report ->
  xml_MarshalIndent
    (Formatter.suites_of report (CLI.goVersionFlag flags)
       (CLI.fullPackageClassname flags) (CLI.stripANSIEscape flags)) = inl bytes ->
  snd (CLI.main (Wr := bytes.Buffer) flags 0 stdin stdout)
  = stdout +:+ (if CLI.noXMLHeader flags then EmptyString else xml_Header)
    +:+ bytes +:+ newline.
Proof.
  intros Hparse Hm. unfold CLI.main. cbn [Z.eqb negb]. rewrite Hparse.
  unfold Formatter.JUnitReportXML. rewrite Hm.
  rewrite write_out_Buffer.
  by destruct (CLI.setExitCode flags && (Failures report >? 0)).
Qed.

Lemma X18_witness :
  CLI.parser_Parse (Parser := Fixtures.three_inputs) "tests" EmptyString
  = inl Demo.report_tests
  /\ exists bytes,
      xml_MarshalIndent (Env := Demo.ext)
        (Formatter.suites_of (Env := Demo.ext) Demo.report_tests EmptyString false false)
      = inl bytes
      /\ CLI.main (Env := Demo.ext) (P := Fixtures.three_inputs) (Wr := bytes.Buffer)
           (Demo.flags true) 0 "tests" EmptyString
         = (1, EmptyString +:+ xml_Header (Externals := Demo.ext) +:+ bytes +:+ newline).
Proof.
  split; [reflexivity|].
  eexists. split; [reflexivity|].
  apply injective_projections; [reflexivity|].
  exact (X18_main_writes_report (Env := Demo.ext) (P := Fixtures.three_inputs)
           (Demo.flags true) "tests" EmptyString Demo.report_tests _ eq_refl eq_refl).
Defined.

(** X19: a subtest of [testJUnitFormatter] whose expected report loads
    passes exactly when that report is the header (unless noXMLHeader),
    the marshalled document and a newline, the document being formatted
    with the test case's stripANSIEscape in the place of
    fullPackageClassname and its fullPackageClassname in the place of
    stripANSIEscape, as the call passes them; where the two flags of the
    test case are equal this is the document formatted as the test case
    says. *)
Theorem X19_subtest_pass {Env : Externals} {F : FormatterTest.Files}
    (testCase : FormatterTest.TestCase) (goVersion expected : string) :
  FormatterTest.loadTestReport (FormatterTest.reportName testCase) goVersion
  = inl expected ->
  let header :=
    if FormatterTest.noXMLHeader testCase then EmptyString else xml_Header in
  (FormatterTest.subtest testCase goVersion = FormatterTest.Pass
   <-> exists bytes,
        xml_render
          (document (FormatterTest.report testCase) goVersion
             (FormatterTest.stripANSIEscape testCase)
             (FormatterTest.fullPackageClassname testCase)) = inl bytes
        /\ expected = header +:+ bytes +:+ newline)
  /\ (FormatterTest.fullPackageClassname testCase = FormatterTest.stripANSIEscape testCase ->
      (FormatterTest.subtest testCase goVersion = FormatterTest.Pass
       <-> exists bytes,
            xml_render
              (document (FormatterTest.report testCase) goVersion
                 (FormatterTest.fullPackageClassname testCase)
                 (FormatterTest.stripANSIEscape testCase)) = inl bytes
            /\ expected = header +:+ bytes +:+ newline)).
Proof.
  intros Hload. cbv zeta.
  assert (Hmain :
    FormatterTest.subtest testCase goVersion = FormatterTest.Pass
    <-> exists bytes,
         xml_render
           (document (FormatterTest.report testCase) goVersion
              (FormatterTest.stripANSIEscape testCase)
              (FormatterTest.fullPackageClassname testCase)) = inl bytes
         /\ expected
            = (if FormatterTest.noXMLHeader testCase then EmptyString else xml_Header)
              +:+ bytes +:+ newline).
  { unfold FormatterTest.subtest. rewrite Hload.
    unfold Formatter.JUnitReportXML, xml_MarshalIndent, document.
    destruct (xml_render _) as [bytes|err].
    - rewrite write_out_Buffer, append_nil. case_decide as Hd.
      + split; [done|]. intros (b & [= <-] & ->). done.
      + split; [|done]. intros _. exists bytes. split; [done|].
        by destruct (decide
                       ((if FormatterTest.noXMLHeader testCase
                         then EmptyString else xml_Header) +:+ bytes +:+ newline
                        = expected)) as [<-|].
    - split; [done|]. by intros (b & ? & _). }
  split; [exact Hmain|]. intros E. rewrite E in *. exact Hmain.
Qed.

Lemma X19_witness :
  FormatterTest.loadTestReport (Env := Demo.ext) (F := Fixtures.testdata)
    "01-report.xml" EmptyString = inl Fixtures.expected_pass
  /\ (FormatterTest.subtest (Env := Demo.ext) (F := Fixtures.testdata)
        Fixtures.case_pass EmptyString = FormatterTest.Pass
      <-> exists bytes,
           xml_render (Externals := Demo.ext)
             (document (Env := Demo.ext) Demo.report_pass EmptyString false false)
           = inl bytes
           /\ Fixtures.expected_pass = "<?xml?>" +:+ bytes +:+ newline).
Proof.
  split; [reflexivity|].
  exact (proj1 (X19_subtest_pass (Env := Demo.ext) (F := Fixtures.testdata)
                  Fixtures.case_pass EmptyString Fixtures.expected_pass eq_refl)).
Defined.

Example subtest_case_pass :
  FormatterTest.subtest (Env := Demo.ext) (F := Fixtures.testdata)
    Fixtures.case_pass EmptyString = FormatterTest.Pass.
Proof. reflexivity. Qed.

End DriverFacts.
